(** * The extendable HDF5 dataset container of [baseline_preprocess.py]

    A shallow embedding of the class [HDF5DatasetExtendable] together with the
    part of NumPy and h5py it calls: array shapes, [File(name, "w")],
    [create_dataset], [Dataset.resize], the slice assignment
    [dset[-k:, ...] = val] with h5py's broadcasting, and [Dataset.attrs].

    Python methods mutate the object and the files on disk and may raise;
    an exception leaves every mutation made so far in place.  Methods are
    therefore functions from a state to a result and a state. *)

From Stdlib Require Import ZArith DecimalString.
From stdpp Require Import gmap strings list fin_maps.

Open Scope string_scope.
Open Scope nat_scope.
Open Scope list_scope.

(** ** Exceptions, results and the effect monad *)

(** The Python exceptions the class can raise: [AssertionError] from the
    constructor's [assert] (the specification's configuration error),
    [AttributeError] from reading an attribute not yet assigned (its
    uninitialized-container error), [TypeError] from h5py when a value
    cannot be broadcast to a selection (its shape-mismatch error),
    [IndexError] from [shape[0]] on an array without axes, and [ValueError]
    from h5py for arguments it refuses. *)
Inductive exn : Type :=
  | AssertionError (msg : string)
  | AttributeError
  | IndexError
  | TypeError
  | ValueError.

Inductive result (A : Type) : Type :=
  | Return (a : A)
  | Raise (e : exn).
Arguments Return {A} a.
Arguments Raise {A} e.

Definition Eff (S A : Type) : Type := S → result A * S.

#[global] Instance Eff_ret {S} : MRet (Eff S) := λ A a s, (Return a, s).

#[global] Instance Eff_bind {S} : MBind (Eff S) := λ A B k m s,
  match m s with
  | (Return a, s') => k a s'
  | (Raise e, s') => (Raise e, s')
  end.

Definition throw {S A} (e : exn) : Eff S A := λ s, (Raise e, s).

(** [for k, v in items: body] *)
Fixpoint for_each {S A} (items : list A) (body : A → Eff S unit) : Eff S unit :=
  match items with
  | [] => mret tt
  | x :: rest => body x ;; for_each rest body
  end.

(** ** Python values *)

(** [sub in s] on strings: [sub] occurs in [s] at some position. *)
Fixpoint str_contains (sub s : string) : bool :=
  String.prefix sub s ||
  match s with
  | EmptyString => false
  | String _ s' => str_contains sub s'
  end.

(** The specification's condition on the output path, "must denote a
    specific container-file extension": [path] ends with [ext].  The
    constructor tests [str_contains] instead. *)
Fixpoint has_extension (ext path : string) : bool :=
  String.eqb ext path ||
  match path with
  | EmptyString => false
  | String _ path' => has_extension ext path'
  end.

(** The values a metadata dictionary holds (as [vars(args)] does). *)
Inductive pyval : Type :=
  | PyStr (s : string)
  | PyInt (z : Z)
  | PyBool (b : bool)
  | PyNone.

(** [str(v)] *)
Definition str (v : pyval) : string :=
  match v with
  | PyStr s => s
  | PyInt z => NilZero.string_of_int (Z.to_int z)
  | PyBool true => "True"
  | PyBool false => "False"
  | PyNone => "None"
  end.

(** ** NumPy shapes *)

(** Number of elements of an array of the given shape. *)
Definition product (shape : list nat) : nat := foldr Nat.mul 1 shape.

(** [slice(-k, None).indices(n)], the start of [a[-k:]] on an axis of
    length [n]: [-0] is [0], so [a[-0:]] is the whole axis. *)
Definition slice_start (k n : nat) : nat :=
  if k =? 0 then 0 else n - k.

(** h5py [SimpleSelection.expand_shape]: align the source shape with the
    selection's [count] from the last axis backwards.  A source axis must
    be 1 or equal the selected extent; selection axes left over are
    broadcast (extent 1); source axes left over must not exceed 1. *)
Fixpoint expand_rev (count_rev src_rev : list nat) : option (list nat * list nat) :=
  match count_rev with
  | [] => Some ([], src_rev)
  | c :: cs =>
      match src_rev with
      | [] => '(e, rem) ← expand_rev cs []; Some (1 :: e, rem)
      | t :: ts =>
          if (t =? 1) || (c =? t)
          then '(e, rem) ← expand_rev cs ts; Some (t :: e, rem)
          else None
      end
  end.

Definition expand_shape (count source_shape : list nat) : option (list nat) :=
  '(e, rem) ← expand_rev (reverse count) (reverse source_shape);
  if existsb (λ n, 1 <? n) rem then None else Some (reverse e).

(** For shapes of equal rank: every source extent is 1 or the selected one. *)
Definition compatible (source_shape count : list nat) : bool :=
  forallb (λ p, (p.2 =? 1) || (p.1 =? p.2)) (zip count source_shape).

(** A source extent fills a selected extent: it is 1 or equal to it. *)
Definition fills (t c : nat) : Prop := t = 1 ∨ t = c.

(** Whether each extent is within the (possibly unlimited) maximum. *)
Fixpoint fits (shape : list nat) (maxshape : list (option nat)) : bool :=
  match shape, maxshape with
  | n :: s, m :: ms =>
      match m with None => true | Some k => n <=? k end && fits s ms
  | _, _ => true
  end.

(** The compression settings [create_dataset] is taken to accept: none,
    and the filters h5py always has, gzip and lzf.  Any other name is
    refused with [ValueError].  That includes szip, which h5py accepts only
    when the HDF5 library has its encoder and a chunk holds at least one
    szip block (a small batch does not): it is taken as not installed, and
    the statements on a first append are about the three settings above. *)
Definition compression_available (c : option string) : bool :=
  match c with
  | None => true
  | Some s => bool_decide (s ∈ ["gzip"; "lzf"])
  end.

(** A name as the HDF5 library reads it, a C string: the characters before
    the first NUL. *)
Fixpoint c_string (s : string) : string :=
  match s with
  | EmptyString => EmptyString
  | String a s' => if Ascii.eqb a Ascii.zero then EmptyString else String a (c_string s')
  end.

(** Whether a string holds a NUL character. *)
Fixpoint has_nul (s : string) : bool :=
  match s with
  | EmptyString => false
  | String a s' => Ascii.eqb a Ascii.zero || has_nul s'
  end.

(** What h5py stores as an attribute: the name must not be empty and the
    string value must hold no NUL. *)
Definition attr_ok (k v : string) : bool :=
  negb (String.eqb (c_string k) "") && negb (has_nul v).

Section Store.
Context {V : Type}.

(** ** NumPy arrays *)

(** An [ndarray]: its [.shape] and its elements in C (row-major) order. *)
Record ndarray : Type := mk_ndarray {
  nd_shape : list nat;
  nd_flat : list V }.

Definition wf_array (a : ndarray) : Prop :=
  length (nd_flat a) = product (nd_shape a).

(** An element type, as far as storage is concerned: the conversion applied
    to a value written at this type, and the default fill value. *)
Record dtype : Type := mk_dtype {
  dt_cast : V → V;
  dt_zero : V }.

(** The [k]-th block of [n] consecutive elements. *)
Definition chunk (n k : nat) (l : list V) : list V := take n (drop (k * n) l).

(** Writing a source of shape [tshape] over a selection of shape [count],
    every [tshape] extent being 1 or the [count] extent: the source is
    repeated along the axes where it has extent 1 (h5py
    [SimpleSelection.broadcast] writes it once per repetition). *)
Fixpoint broadcast (tshape count : list nat) (src : list V) : list V :=
  match tshape, count with
  | t :: ts, c :: cs =>
      flat_map (λ k, broadcast ts cs (chunk (product ts) (k mod t) src)) (seq 0 c)
  | _, _ => src
  end.

(** The elements of a dataset after its extent changes from [old] to [new]:
    an element keeps its index, new positions read as the fill value. *)
Fixpoint resize_data (fill : V) (old new : list nat) (l : list V) : list V :=
  match old, new with
  | o :: os, n :: ns =>
      flat_map (λ k, if k <? o
                     then resize_data fill os ns (chunk (product os) k l)
                     else replicate (product ns) fill) (seq 0 n)
  | _, _ => l
  end.

(** ** h5py datasets and files *)

Record Dataset : Type := mk_Dataset {
  ds_shape : list nat;
  ds_maxshape : list (option nat);
  ds_dtype : dtype;
  ds_chunks : bool;
  ds_compression : option string;
  ds_data : list V;
  ds_attrs : gmap string string }.

(** A file holds its datasets by name; the disk holds files by path.  A
    [File] object is the path it was opened at, a [Dataset] object the pair
    of its file and its name: both denote what is on disk, so every holder
    of the object sees every update. *)
Abbreviation Disk := (gmap string (gmap string Dataset)).
Abbreviation FileRef := string.
Abbreviation DatasetRef := (string * string)%type.

Definition lookup_dataset (fs : Disk) (h : DatasetRef) : option Dataset :=
  fs !! h.1 ≫= (.!! h.2).

Definition store_dataset (h : DatasetRef) (ds : Dataset) (fs : Disk) : Disk :=
  match fs !! h.1 with
  | Some grp => <[h.1 := <[h.2 := ds]> grp]> fs
  | None => fs
  end.

(** [h5py.File(name, "w")]: create the file, truncating an existing one.
    Failures of the operating system (permissions, disk full) are outside
    the model. *)
Definition File_w (name : string) : Eff Disk FileRef :=
  λ fs, (Return name, <[name := ∅]> fs).

(** A scalar dataset (no axis) supports neither chunking nor compression and
    cannot be extended: h5py raises [TypeError] when one is asked for. *)
Definition scalar_with_options (shape : list nat) (maxshape : list (option nat))
    (chunks : bool) (compression : option string) : bool :=
  match shape with
  | [] => chunks || bool_decide (is_Some compression) || negb (bool_decide (maxshape = []))
  | _ :: _ => false
  end.

(** [file.create_dataset(name, shape, dtype, maxshape=, data=, chunks=,
    compression=)] *)
Definition create_dataset (f : FileRef) (name : string) (shape : list nat)
    (dt : dtype) (maxshape : list (option nat)) (data : ndarray)
    (chunks : bool) (compression : option string) : Eff Disk DatasetRef :=
  λ fs,
  match fs !! f with
  | None => (Raise ValueError, fs)
  | Some grp =>
      if negb (product shape =? product (nd_shape data)) then (Raise ValueError, fs)
      else if scalar_with_options shape maxshape chunks compression
      then (Raise TypeError, fs)
      else if negb (length maxshape =? length shape) then (Raise ValueError, fs)
      else if negb (compression_available compression) then (Raise ValueError, fs)
      else if negb (fits shape maxshape) then (Raise ValueError, fs)
      else if bool_decide (is_Some (grp !! name)) then (Raise ValueError, fs)
      else
        let ds := {| ds_shape := shape; ds_maxshape := maxshape; ds_dtype := dt;
                     ds_chunks := chunks; ds_compression := compression;
                     ds_data := dt_cast dt <$> nd_flat data; ds_attrs := ∅ |} in
        (Return (f, name), <[f := <[name := ds]> grp]> fs)
  end.

(** An operation on the dataset a reference denotes. *)
Definition on_dataset (h : DatasetRef) (op : Dataset → result Dataset) : Eff Disk unit :=
  λ fs,
  match lookup_dataset fs h with
  | None => (Raise ValueError, fs)
  | Some ds =>
      match op ds with
      | Return ds' => (Return tt, store_dataset h ds' fs)
      | Raise e => (Raise e, fs)
      end
  end.

(** [dset.shape] *)
Definition Dataset_shape (h : DatasetRef) : Eff Disk (list nat) :=
  λ fs,
  match lookup_dataset fs h with
  | None => (Raise ValueError, fs)
  | Some ds => (Return (ds_shape ds), fs)
  end.

(** The dataset with a new extent and new elements, all else unchanged. *)
Definition with_contents (shape : list nat) (data : list V) (ds : Dataset) : Dataset :=
  {| ds_shape := shape; ds_maxshape := ds_maxshape ds; ds_dtype := ds_dtype ds;
     ds_chunks := ds_chunks ds; ds_compression := ds_compression ds;
     ds_data := data; ds_attrs := ds_attrs ds |}.

(** [dset.resize(size)]: only chunked datasets, same rank, within
    [maxshape]. *)
Definition resize (size : list nat) (ds : Dataset) : result Dataset :=
  if negb (ds_chunks ds) then Raise TypeError
  else if negb (length size =? length (ds_shape ds)) then Raise ValueError
  else if negb (fits size (ds_maxshape ds)) then Raise ValueError
  else Return (with_contents size
                 (resize_data (dt_zero (ds_dtype ds)) (ds_shape ds) size (ds_data ds)) ds).

(** [dset[-k:, ...] = val]: the selection is the rows from
    [slice_start k n] on, all of every other axis.  An empty selection
    returns at once; otherwise [val] must broadcast to the selection (else
    [TypeError]) and is written, converted to the dataset's type, over the
    selected rows.  A source with a zero extent among its left-over axes
    holds fewer elements than the write needs; h5py defines no result for
    it and it is rejected here. *)
Definition setitem_tail (k : nat) (val : ndarray) (ds : Dataset) : result Dataset :=
  match ds_shape ds with
  | [] => Raise ValueError
  | n :: sample =>
      let start := slice_start k n in
      let count := (n - start) :: sample in
      if product count =? 0 then Return ds
      else
        match expand_shape count (nd_shape val) with
        | None => Raise TypeError
        | Some tshape =>
            if negb (product (nd_shape val) =? product tshape) then Raise TypeError
            else Return (with_contents (ds_shape ds)
                           (take (start * product sample) (ds_data ds) ++
                            broadcast tshape count (dt_cast (ds_dtype ds) <$> nd_flat val)) ds)
        end
  end.

(** The dataset with new attributes, all else unchanged. *)
Definition with_attrs (attrs : gmap string string) (ds : Dataset) : Dataset :=
  {| ds_shape := ds_shape ds; ds_maxshape := ds_maxshape ds; ds_dtype := ds_dtype ds;
     ds_chunks := ds_chunks ds; ds_compression := ds_compression ds;
     ds_data := ds_data ds; ds_attrs := attrs |}.

(** [dset.attrs[k] = v] for a string [v]: h5py raises [ValueError] for an
    empty name and for a value with a NUL in it, and then leaves the
    attributes as they were; otherwise the attribute is created or
    replaced. *)
Definition attrs_set (k v : string) (ds : Dataset) : result Dataset :=
  if attr_ok k v
  then Return (with_attrs (<[c_string k := v]> (ds_attrs ds)) ds)
  else Raise ValueError.

(** ** The class [HDF5DatasetExtendable] *)

Definition VERSION : string := "1.0.0".

(** The object's attributes.  [file], [dataset] and [labelset] do not exist
    until [__enter__] and [_init] assign them: reading one that is [None]
    here is an [AttributeError]. *)
Record HDF5DatasetExtendable : Type := mk_self {
  filename : string;
  data_type : dtype;
  label_type : dtype;
  compression : option string;
  initialized : bool;
  file : option FileRef;
  dataset : option DatasetRef;
  labelset : option DatasetRef }.

(** The object and the disk it writes to. *)
Record St : Type := mk_St {
  self : HDF5DatasetExtendable;
  disk : Disk }.

Definition get_self : Eff St HDF5DatasetExtendable := λ st, (Return (self st), st).

Definition set_self (f : HDF5DatasetExtendable → HDF5DatasetExtendable) : Eff St unit :=
  λ st, (Return tt, {| self := f (self st); disk := disk st |}).

(** Run a file operation from inside a method. *)
Definition on_disk {A} (m : Eff Disk A) : Eff St A :=
  λ st, let '(r, fs) := m (disk st) in (r, {| self := self st; disk := fs |}).

(** Reading an attribute that may not exist yet. *)
Definition getattr {A} (field : HDF5DatasetExtendable → option A) : Eff St A :=
  λ st, match field (self st) with
        | Some a => (Return a, st)
        | None => (Raise AttributeError, st)
        end.

Definition set_file (f : FileRef) (s : HDF5DatasetExtendable) : HDF5DatasetExtendable :=
  {| filename := filename s; data_type := data_type s; label_type := label_type s;
     compression := compression s; initialized := initialized s;
     file := Some f; dataset := dataset s; labelset := labelset s |}.

Definition set_dataset (d : DatasetRef) (s : HDF5DatasetExtendable) : HDF5DatasetExtendable :=
  {| filename := filename s; data_type := data_type s; label_type := label_type s;
     compression := compression s; initialized := initialized s;
     file := file s; dataset := Some d; labelset := labelset s |}.

Definition set_labelset (d : DatasetRef) (s : HDF5DatasetExtendable) : HDF5DatasetExtendable :=
  {| filename := filename s; data_type := data_type s; label_type := label_type s;
     compression := compression s; initialized := initialized s;
     file := file s; dataset := dataset s; labelset := Some d |}.

Definition set_initialized (b : bool) (s : HDF5DatasetExtendable) : HDF5DatasetExtendable :=
  {| filename := filename s; data_type := data_type s; label_type := label_type s;
     compression := compression s; initialized := b;
     file := file s; dataset := dataset s; labelset := labelset s |}.

(** [HDF5DatasetExtendable(filename, data_type, label_type, compression)] *)
Definition __init__ (filename : string) (data_type label_type : dtype)
    (compression : option string) : Eff Disk HDF5DatasetExtendable :=
  if negb (str_contains ".hdf5" filename)
  then throw (AssertionError "Filename ust be .hdf5 file")
  else mret {| filename := filename; data_type := data_type; label_type := label_type;
               compression := compression; initialized := false;
               file := None; dataset := None; labelset := None |}.

Definition __enter__ : Eff St unit :=
  s ← get_self;
  f ← on_disk (File_w (filename s));
  set_self (set_file f).

Definition add_metadata (info : list (string * pyval)) : Eff St unit :=
  d ← getattr dataset;
  on_disk (on_dataset d (attrs_set "version" VERSION));;
  for_each info (λ '(k, v),
    d ← getattr dataset;
    on_disk (on_dataset d (attrs_set k (str v)))).

Definition _init (data labels : ndarray) : Eff St unit :=
  s ← get_self;
  f ← getattr file;
  d ← on_disk (create_dataset f "data" (nd_shape data) (data_type s)
                 (None :: (Some <$> tail (nd_shape data))) data true (compression s));
  set_self (set_dataset d);;
  s ← get_self;
  f ← getattr file;
  l ← on_disk (create_dataset f "labels" (nd_shape labels) (label_type s)
                 (None :: (Some <$> tail (nd_shape labels))) labels true (compression s));
  set_self (set_labelset l);;
  set_self (set_initialized true).

(** [a.shape[0]] *)
Definition shape0 {S} (a : ndarray) : Eff S nat :=
  match nd_shape a with
  | [] => throw IndexError
  | c :: _ => mret c
  end.

(** [shape[0] += a.shape[0]] on [shape = np.array(dset.shape)] *)
Definition iadd0 {S} (shape : list nat) (a : ndarray) : Eff S (list nat) :=
  match shape with
  | [] => throw IndexError
  | n :: rest => c ← shape0 a; mret (n + c :: rest)
  end.

Definition append (data labels : ndarray) : Eff St unit :=
  s ← get_self;
  if negb (initialized s) then _init data labels
  else
    d ← getattr dataset;
    shape ← on_disk (Dataset_shape d);
    shape ← iadd0 shape data;
    d ← getattr dataset;
    on_disk (on_dataset d (resize shape));;
    d ← getattr dataset;
    c ← shape0 data;
    on_disk (on_dataset d (setitem_tail c data));;

    l ← getattr labelset;
    shape ← on_disk (Dataset_shape l);
    shape ← iadd0 shape labels;
    l ← getattr labelset;
    on_disk (on_dataset l (resize shape));;
    l ← getattr labelset;
    c ← shape0 labels;
    on_disk (on_dataset l (setitem_tail c labels)).

(** The four statements [append] runs on one of its arrays ([field] is
    [dataset] or [labelset]); [append] runs them on the data array and then
    on the label array. *)
Definition extend (field : HDF5DatasetExtendable → option DatasetRef)
    (batch : ndarray) : Eff St unit :=
  d ← getattr field;
  shape ← on_disk (Dataset_shape d);
  shape ← iadd0 shape batch;
  d ← getattr field;
  on_disk (on_dataset d (resize shape));;
  d ← getattr field;
  c ← shape0 batch;
  on_disk (on_dataset d (setitem_tail c batch)).

(** Appending a sequence of batches, stopping at the first exception. *)
Definition appends (batches : list (ndarray * ndarray)) : Eff St unit :=
  for_each batches (λ '(data, labels), append data labels).

(** ** Observations *)

Definition data_array (st : St) : option Dataset :=
  dataset (self st) ≫= lookup_dataset (disk st).

Definition label_array (st : St) : option Dataset :=
  labelset (self st) ≫= lookup_dataset (disk st).

(** Sample count: the extent of the first axis. *)
Definition count (ds : Dataset) : nat := hd 0 (ds_shape ds).

(** Per-sample shape: the extents of the other axes. *)
Definition sample_shape (ds : Dataset) : list nat := tail (ds_shape ds).

(** Row [i] of a dataset, and of a batch. *)
Definition row (ds : Dataset) (i : nat) : list V :=
  chunk (product (sample_shape ds)) i (ds_data ds).

Definition batch_count (a : ndarray) : nat := hd 0 (nd_shape a).

Definition batch_row (a : ndarray) (i : nat) : list V :=
  chunk (product (tail (nd_shape a))) i (nd_flat a).

(** ** States of the container *)

(** A dataset as [_init] creates it and [append] keeps it: [n] samples of
    shape [sample], first axis unlimited, the others fixed, chunked, and
    as many elements as the extent says. *)
Definition shaped (n : nat) (sample : list nat) (ds : Dataset) : Prop :=
  ds_shape ds = n :: sample ∧
  ds_maxshape ds = None :: (Some <$> sample) ∧
  ds_chunks ds = true ∧
  length (ds_data ds) = n * product sample.

Definition wf_dataset (sample : list nat) (ds : Dataset) : Prop :=
  ∃ n, shaped n sample ds.

(** An initialized container whose arrays are [d] and [l]. *)
Definition holds (st : St) (d l : Dataset) : Prop :=
  initialized (self st) = true ∧
  ∃ p grp, dataset (self st) = Some (p, "data") ∧
           labelset (self st) = Some (p, "labels") ∧
           disk st !! p = Some grp ∧
           grp !! "data" = Some d ∧
           grp !! "labels" = Some l.

(** An initialized container whose per-sample shapes are [S] (data) and
    [T] (labels). *)
Definition Ready (S T : list nat) (st : St) : Prop :=
  ∃ d l, holds st d l ∧ wf_dataset S d ∧ wf_dataset T l.

(** A container inside its [with] block before the first [append]. *)
Definition Entered (st : St) : Prop :=
  initialized (self st) = false ∧
  ∃ p, file (self st) = Some p ∧ disk st !! p = Some ∅.

(** The states of a container on which [append] has not been called. *)
Inductive never_appended : St → Prop :=
  | na_new filename dt lt comp fs s fs' :
      __init__ filename dt lt comp fs = (Return s, fs') →
      never_appended {| self := s; disk := fs' |}
  | na_enter st :
      never_appended st → never_appended (__enter__ st).2
  | na_metadata st info :
      never_appended st → never_appended (add_metadata info st).2.

(** The effect of [extend] on the array itself: the result and the array
    left behind. *)
Definition extend_array (batch : ndarray) (d : Dataset) : result unit * Dataset :=
  match ds_shape d with
  | [] => (Raise IndexError, d)
  | n :: sample =>
      match nd_shape batch with
      | [] => (Raise IndexError, d)
      | c :: _ =>
          match resize (n + c :: sample) d with
          | Raise e => (Raise e, d)
          | Return d1 =>
              match setitem_tail c batch d1 with
              | Raise e => (Raise e, d1)
              | Return d2 => (Return tt, d2)
              end
          end
      end
  end.

(** The effect of [append] on the two arrays of an initialized container:
    the data array first, the label array only if that went through. *)
Definition append_arrays (data labels : ndarray) (d l : Dataset)
    : result unit * Dataset * Dataset :=
  match extend_array data d with
  | (Return _, d') => let '(r, l') := extend_array labels l in (r, d', l')
  | (Raise e, d') => (Raise e, d', l)
  end.

(** The array [_init] creates from a first batch. *)
Definition init_array (dt : dtype) (comp : option string) (batch : ndarray) : Dataset :=
  {| ds_shape := nd_shape batch;
     ds_maxshape := None :: (Some <$> tail (nd_shape batch));
     ds_dtype := dt; ds_chunks := true; ds_compression := comp;
     ds_data := dt_cast dt <$> nd_flat batch; ds_attrs := ∅ |}.

(** The attributes the loop of [add_metadata] leaves: it stops at the first
    item h5py refuses. *)
Fixpoint items_attrs (info : list (string * pyval)) (attrs : gmap string string)
    : gmap string string :=
  match info with
  | [] => attrs
  | (k, v) :: rest =>
      if attr_ok k (str v)
      then items_attrs rest (<[c_string k := str v]> attrs)
      else attrs
  end.

(** The attributes [add_metadata(info)] leaves on a dataset whose
    attributes were [attrs], and its result. *)
Definition metadata_attrs (info : list (string * pyval)) (attrs : gmap string string)
    : gmap string string :=
  items_attrs info (<["version" := VERSION]> attrs).

Definition metadata_result (info : list (string * pyval)) : result unit :=
  if forallb (λ kv, attr_ok kv.1 (str kv.2)) info then Return tt else Raise ValueError.

(** A dictionary h5py stores entirely: every key is a non-empty name
    without NUL and the string of every value holds no NUL. *)
Definition storable (info : list (string * pyval)) : Prop :=
  Forall (λ kv, kv.1 ≠ "" ∧ has_nul kv.1 = false ∧ has_nul (str kv.2) = false) info.

(** The states a container goes through after [st]: any number of
    [append] and [add_metadata] calls, whether they return or raise. *)
Inductive later (st : St) : St → Prop :=
  | later_now : later st st
  | later_append st' data labels :
      later st st' → wf_array data → wf_array labels →
      later st (append data labels st').2
  | later_metadata st' info :
      later st st' → later st (add_metadata info st').2.

End Store.

Arguments ndarray : clear implicits.
Arguments dtype : clear implicits.
Arguments Dataset : clear implicits.
Arguments HDF5DatasetExtendable : clear implicits.
Arguments St : clear implicits.

(** ** A concrete instance: integer elements *)

Module Example.

(** Signed 64-bit integers hold the values below unchanged. *)
Definition int64 : dtype Z := {| dt_cast := λ x, x; dt_zero := 0%Z |}.

(** Unsigned 8-bit integers: HDF5 converts an integer out of range to the
    nearest bound. *)
Definition uint8 : dtype Z := {| dt_cast := λ x, (0 `max` (x `min` 255))%Z; dt_zero := 0%Z |}.

(** [np.array([range(base, base + m) for x in range(n)])] *)
Definition rows (n m : nat) (base : Z) : ndarray Z :=
  {| nd_shape := [n; m];
     nd_flat := flat_map (λ _, (λ j, (base + Z.of_nat j)%Z) <$> seq 0 m) (seq 0 n) |}.

(** The object [HDF5DatasetExtendable("test.hdf5", dt, lt, None)]. *)
Definition new_self (dt lt : dtype Z) : HDF5DatasetExtendable Z :=
  mk_self "test.hdf5" dt lt None false None None None.

(** The result and state of [body] run inside
    [with HDF5DatasetExtendable("test.hdf5", dt, lt, None) as dataset:],
    from an empty disk. *)
Definition within (dt lt : dtype Z) (body : Eff (St Z) unit) : result unit * St Z :=
  (__enter__ ;; body) {| self := new_self dt lt; disk := ∅ |}.

(** The container inside its [with] block, before any [append]. *)
Definition entered : St Z := (within int64 int64 (mret tt)).2.

(** A container initialized with two samples of shape (3,) and two labels
    of shape (1,). *)
Definition st23 : St Z :=
  (within int64 int64 (append (rows 2 3 0) (rows 2 1 100))).2.

(** Its two arrays. *)
Definition data23 : Dataset Z := init_array int64 None (rows 2 3 0).
Definition labels23 : Dataset Z := init_array int64 None (rows 2 1 100).

(** A container initialized with two samples of shape (3,) and two labels
    of shape (2,). *)
Definition st22 : St Z :=
  (within int64 int64 (append (rows 2 3 0) (rows 2 2 100))).2.

(** Its two arrays. *)
Definition data22 : Dataset Z := init_array int64 None (rows 2 3 0).
Definition labels22 : Dataset Z := init_array int64 None (rows 2 2 100).

(** Scenario C: a container initialized with samples of shape (10,). *)
Definition st_C : St Z :=
  (within int64 int64 (append (rows 2 10 0) (rows 2 1 0))).2.

(** The test script at the end of the module: batches of shapes
    (10,10)/(10,5) and then (8,10)/(8,5). *)
Definition scenario_A : result unit * St Z :=
  within int64 int64
    (append (rows 10 10 0) (rows 10 5 0) ;; append (rows 8 10 0) (rows 8 5 0)).

End Example.

(** ** Use outside a [with] block *)

(** The states of a container that was constructed but never entered:
    whatever [append] and [add_metadata] calls were made on it. *)
Inductive outside_with {V : Type} : St V → Prop :=
  | ow_new filename dt lt comp fs s fs' :
      __init__ filename dt lt comp fs = (Return s, fs') →
      outside_with {| self := s; disk := fs' |}
  | ow_append st data labels :
      outside_with st → outside_with (append data labels st).2
  | ow_metadata st info :
      outside_with st → outside_with (add_metadata info st).2.

(** ** Calls with batches of the arrays' rank *)

(** The states after [st] reached by [append] calls, returning or raising,
    whose batches have no more axes than the arrays ([S] and [T] are the
    per-sample shapes), and by [add_metadata] calls. *)
Inductive later_ranked {V : Type} (S T : list nat) (st : St V) : St V → Prop :=
  | lr_now : later_ranked S T st st
  | lr_append st' data labels :
      later_ranked S T st st' → wf_array data → wf_array labels →
      length (nd_shape data) ≤ 1 + length S →
      length (nd_shape labels) ≤ 1 + length T →
      later_ranked S T st (append data labels st').2
  | lr_metadata st' info :
      later_ranked S T st st' → later_ranked S T st (add_metadata info st').2.

(** ** The fragments [tf_fourier] returns *)

Definition window_size : N := 440.
Definition universal_sample_rate : N := 22000.
Definition spectrogram_slices_per_input : N := universal_sample_rate * 5 / window_size.

Section Fragments.
Context {V : Type}.

(** [a[begin:end]] on a two-dimensional array of [frames] rows and [bins]
    columns: both bounds are clipped to the number of rows. *)
Definition slice_rows (frames bins begin end_ : nat) (a : list V) : ndarray V :=
  let b := begin `min` frames in
  let e := end_ `min` frames in
  {| nd_shape := [e - b; bins];
     nd_flat := take ((e - b) * bins) (drop (b * bins) a) |}.

(** [slices[i] = x] on an array of shape [(n, rows, bins)]: the index must
    be in range, and [x], two-dimensional here, must broadcast to
    [(rows, bins)]. *)
Definition setitem_index (n rows bins i : nat) (x : ndarray V) : Eff (list V) unit :=
  λ slices,
  if negb (i <? n) then (Raise IndexError, slices)
  else if negb (length (nd_shape x) =? 2) then (Raise ValueError, slices)
  else if negb (compatible (nd_shape x) [rows; bins]) then (Raise ValueError, slices)
  else (Return tt,
        take (i * (rows * bins)) slices ++
        broadcast (nd_shape x) [rows; bins] (nd_flat x) ++
        drop ((i + 1) * (rows * bins)) slices).

(** The last statements of [tf_fourier], from the spectrogram (the
    magnitudes of the short-time Fourier transform, [frames] rows of [bins]
    values) to the returned array: the spectrogram is cut into fragments of
    [spectrogram_slices_per_input] frames.  [zero] is the value [np.zeros]
    fills with; copying a value into the array does not change it.  The
    shape the function prints on the way is not part of the model. *)
Definition tf_fourier_fragments (zero : V) (frames bins : nat) (spectrogram : list V)
    : result (ndarray V) :=
  let per_input := N.to_nat spectrogram_slices_per_input in
  let n_fragmets := frames / per_input in
  let slices := replicate (n_fragmets * (per_input * bins)) zero in
  match
    for_each (seq 0 n_fragmets) (λ i,
      let begin := i * per_input in
      let end_ := (i + 1) * per_input in
      setitem_index n_fragmets per_input bins i
        (slice_rows frames bins begin end_ spectrogram)) slices
  with
  | (Return _, slices) =>
      Return {| nd_shape := [n_fragmets; per_input; bins]; nd_flat := slices |}
  | (Raise e, _) => Raise e
  end.

End Fragments.

(** * Verification *)

(** ** Shapes and broadcasting *)

Section ShapeFacts.

Lemma product_app s1 s2 : product (s1 ++ s2) = product s1 * product s2.
Proof. induction s1 as [|n s1 IH]; simpl; [lia|]. rewrite IH. lia. Qed.

Lemma product_reverse s : product (reverse s) = product s.
Proof.
  induction s as [|n s IH]; [done|].
  rewrite reverse_cons, product_app, IH. simpl. lia.
Qed.

Lemma expand_rev_sound cs : ∀ ts e rem,
  expand_rev cs ts = Some (e, rem) →
  Forall2 fills e cs ∧ product ts = product e * product rem.
Proof.
  induction cs as [|c cs IH]; intros ts e rem H; simpl in H.
  - inversion H; subst. split; [constructor|simpl; lia].
  - destruct ts as [|t ts].
    + destruct (expand_rev cs []) as [[e' rem']|] eqn:E; simpl in H; [|done].
      inversion H; subst. destruct (IH _ _ _ E) as [HF HP].
      split; [constructor; [by left|done]|]. simpl in *. lia.
    + destruct ((t =? 1) || (c =? t)) eqn:Ht; [|done].
      destruct (expand_rev cs ts) as [[e' rem']|] eqn:E; simpl in H; [|done].
      inversion H; subst. destruct (IH _ _ _ E) as [HF HP].
      split.
      * constructor; [|done]. apply orb_true_iff in Ht as [Ht|Ht].
        -- left. by apply Nat.eqb_eq in Ht.
        -- right. apply Nat.eqb_eq in Ht. done.
      * simpl. rewrite HP. lia.
Qed.

Lemma expand_shape_sound count src tshape :
  expand_shape count src = Some tshape →
  Forall2 fills tshape count ∧ (product src = product tshape ∨ product src = 0).
Proof.
  unfold expand_shape. intros H.
  destruct (expand_rev (reverse count) (reverse src)) as [[e rem]|] eqn:E; simpl in H; [|done].
  destruct (existsb (λ n, 1 <? n) rem) eqn:Hrem; [done|]. inversion H; subst.
  destruct (expand_rev_sound _ _ _ _ E) as [HF HP].
  split.
  - apply Forall2_reverse in HF. by rewrite reverse_involutive in HF.
  - rewrite product_reverse in *. rewrite HP.
    assert (product rem = 0 ∨ product rem = 1) as [->| ->]; [|lia..].
    clear -Hrem. induction rem as [|r rem IH]; simpl in *; [by right|].
    apply orb_false_iff in Hrem as [Hr Hrem]. apply Nat.ltb_ge in Hr.
    destruct (IH Hrem) as [->| ->]; [left; lia|]. destruct r as [|[|r]]; [left|right|]; lia.
Qed.

Lemma expand_rev_same_rank cs : ∀ ts,
  length cs = length ts →
  expand_rev cs ts = if compatible ts cs then Some (ts, []) else None.
Proof.
  unfold compatible.
  induction cs as [|c cs IH]; intros [|t ts] Hl; simpl in *; try done.
  destruct ((t =? 1) || (c =? t)); simpl; [|done].
  rewrite IH by lia. by destruct (forallb _ _).
Qed.

Lemma compatible_reverse ts : ∀ cs,
  length cs = length ts → compatible (reverse ts) (reverse cs) = compatible ts cs.
Proof.
  unfold compatible.
  induction ts as [|t ts IH]; intros [|c cs] Hl; try done.
  rewrite !reverse_cons. rewrite zip_with_app by (rewrite !length_reverse; simpl in Hl; lia).
  rewrite forallb_app. rewrite IH by (simpl in Hl; lia).
  simpl. rewrite andb_true_r. apply andb_comm.
Qed.

Lemma expand_shape_same_rank count src :
  length count = length src →
  expand_shape count src = if compatible src count then Some src else None.
Proof.
  intros Hl. unfold expand_shape.
  rewrite expand_rev_same_rank by (rewrite !length_reverse; done).
  rewrite compatible_reverse by done.
  destruct (compatible src count); simpl; [|done]. by rewrite reverse_involutive.
Qed.

Lemma compatible_refl s : compatible s s = true.
Proof.
  unfold compatible. induction s as [|n s IH]; simpl; [done|].
  rewrite IH, Nat.eqb_refl, orb_true_r. done.
Qed.

Lemma fills_product tshape count :
  Forall2 fills tshape count → product count ≠ 0 → product tshape ≠ 0.
Proof.
  induction 1 as [|t c ts cs [->| ->] _ IH]; simpl; [lia|intros; lia|].
  intros H. apply Nat.neq_mul_0 in H as [? ?]. apply Nat.neq_mul_0. auto.
Qed.

Lemma fits_fixed s : fits s (Some <$> s) = true.
Proof. induction s as [|n s IH]; simpl; [done|]. by rewrite Nat.leb_refl. Qed.

End ShapeFacts.

Section BroadcastFacts.
Context {V : Type}.

Lemma length_flat_map_const {A} (f : A → list V) (xs : list A) n :
  (∀ x, In x xs → length (f x) = n) → length (flat_map f xs) = length xs * n.
Proof.
  induction xs as [|x xs IH]; intros H; simpl; [done|].
  rewrite length_app, H, IH; [done| |by left]. intros y Hy. apply H. by right.
Qed.

Lemma broadcast_length tshape count :
  Forall2 fills tshape count → ∀ src : list V,
  length src = product tshape → length (broadcast tshape count src) = product count.
Proof.
  induction 1 as [|t c ts cs Ht _ IH]; intros src Hl; [done|].
  simpl. rewrite (length_flat_map_const _ _ (product cs)).
  - by rewrite length_seq.
  - intros k Hk. apply in_seq in Hk. apply IH. unfold chunk.
    rewrite length_take, length_drop. simpl in Hl.
    assert (k mod t < t) by (apply Nat.mod_upper_bound; destruct Ht; lia).
    nia.
Qed.

End BroadcastFacts.

(** ** Blocks of rows *)

Section ListFacts.
Context {V : Type}.
Implicit Types (l src : list V) (s : list nat).

Lemma product_cons n s : product (n :: s) = n * product s.
Proof. reflexivity. Qed.

Lemma flat_map_ext_in {A} (f g : A → list V) (xs : list A) :
  (∀ x, In x xs → f x = g x) → flat_map f xs = flat_map g xs.
Proof.
  induction xs as [|x xs IH]; intros H; simpl; [done|].
  rewrite H by (left; done). rewrite IH; [done|]. intros y Hy. apply H. by right.
Qed.

Lemma chunk_succ n k l : chunk n (S k) l = chunk n k (drop n l).
Proof. unfold chunk. rewrite drop_drop. f_equal. Qed.

Lemma chunk_length n k l : (S k) * n ≤ length l → length (chunk n k l) = n.
Proof. unfold chunk. intros H. rewrite length_take, length_drop. simpl in H. lia. Qed.

Lemma chunks_join (f : list V → list V) n c : ∀ l,
  (∀ x, length x = n → f x = x) → length l = c * n →
  flat_map (λ k, f (chunk n k l)) (seq 0 c) = l.
Proof.
  induction c as [|c IH]; intros l Hf Hl.
  - simpl in *. by destruct l.
  - simpl. rewrite <- seq_shift, flat_map_concat_map, map_map, <- flat_map_concat_map.
    rewrite (flat_map_ext_in _ (λ k, f (chunk n k (drop n l)))).
    2:{ intros k _. by rewrite chunk_succ. }
    rewrite IH; [|done|rewrite length_drop; simpl in Hl; lia].
    rewrite Hf.
    + unfold chunk. simpl. apply take_drop.
    + apply chunk_length. simpl in *; lia.
Qed.

Lemma broadcast_same s : ∀ src, length src = product s → broadcast s s src = src.
Proof.
  induction s as [|t ts IH]; intros src Hl; [done|].
  simpl. rewrite (flat_map_ext_in _ (λ k, broadcast ts ts (chunk (product ts) k src))).
  2:{ intros k Hk. apply in_seq in Hk. rewrite Nat.mod_small by lia. done. }
  by apply (chunks_join (broadcast ts ts)).
Qed.

Lemma resize_same fill s : ∀ l, length l = product s → resize_data fill s s l = l.
Proof.
  induction s as [|t ts IH]; intros l Hl; [done|].
  simpl. rewrite (flat_map_ext_in _ (λ k, resize_data fill ts ts (chunk (product ts) k l))).
  2:{ intros k Hk. apply in_seq in Hk. destruct (Nat.ltb_spec k t); [done|lia]. }
  by apply (chunks_join (resize_data fill ts ts)).
Qed.

Lemma flat_map_const {A} (xs : list A) (b : list V) n (x : V) :
  b = replicate n x → flat_map (λ _, b) xs = replicate (length xs * n) x.
Proof.
  intros ->. induction xs as [|a xs IH]; simpl; [done|].
  by rewrite IH, replicate_add.
Qed.

Lemma resize_grow fill n n' sample l :
  n ≤ n' → length l = n * product sample →
  resize_data fill (n :: sample) (n' :: sample) l =
  l ++ replicate ((n' - n) * product sample) fill.
Proof.
  intros Hn Hl. simpl.
  replace n' with (n + (n' - n)) at 1 by lia.
  rewrite seq_app, flat_map_app. f_equal.
  - rewrite (flat_map_ext_in _ (λ k, resize_data fill sample sample (chunk (product sample) k l))).
    2:{ intros k Hk. apply in_seq in Hk. destruct (Nat.ltb_spec k n); [done|lia]. }
    apply (chunks_join (resize_data fill sample sample)); [|done].
    apply resize_same.
  - rewrite (flat_map_ext_in _ (λ _, replicate (product sample) fill)).
    2:{ intros k Hk. apply in_seq in Hk. destruct (Nat.ltb_spec k n); [lia|done]. }
    rewrite (flat_map_const _ _ (product sample) fill) by done.
    by rewrite length_seq.
Qed.

End ListFacts.

(** ** Resizing and writing one array *)

Section ArrayFacts.
Context {V : Type}.
Implicit Types (d : Dataset V) (batch : ndarray V) (S : list nat).

Lemma with_contents_id d : with_contents (ds_shape d) (ds_data d) d = d.
Proof. by destruct d. Qed.

Lemma shaped_with_contents n m S d data :
  shaped n S d → length data = m * product S →
  shaped m S (with_contents (m :: S) data d).
Proof. intros (_ & Hm & Hc & _) Hl. by repeat split. Qed.

Lemma resize_shaped n c S d :
  shaped n S d →
  resize (n + c :: S) d =
  Return (with_contents (n + c :: S)
            (ds_data d ++ replicate (c * product S) (dt_zero (ds_dtype d))) d).
Proof.
  intros (Hs & Hm & Hc & Hl). unfold resize.
  rewrite Hc, Hs, Hm.
  assert (fits (n + c :: S) (None :: (Some <$> S)) = true) as ->
    by (simpl; apply fits_fixed).
  assert ((length (n + c :: S) =? length (n :: S)) = true) as ->
    by (simpl; apply Nat.eqb_refl).
  cbn [negb]. rewrite (resize_grow _ n) by (done || lia).
  do 4 f_equal. lia.
Qed.

Lemma slice_start_pos c n : 0 < c → slice_start c n = n - c.
Proof. unfold slice_start. intros H. destruct (Nat.eqb_spec c 0); [lia|done]. Qed.

Lemma setitem_tail_match n c S d batch :
  shaped n S d → 0 < c ≤ n → nd_shape batch = c :: S → wf_array batch →
  setitem_tail c batch d =
  Return (with_contents (n :: S)
            (take ((n - c) * product S) (ds_data d) ++ (dt_cast (ds_dtype d) <$> nd_flat batch)) d).
Proof.
  intros (Hs & Hm & Hc & Hl) Hcn Hb Hwf. unfold setitem_tail, wf_array in *.
  rewrite Hs, Hb in *. rewrite slice_start_pos by lia.
  replace (n - (n - c)) with c by lia.
  destruct (Nat.eqb_spec (product (c :: S)) 0) as [H0|H0].
  - rewrite <- (with_contents_id d) at 1. rewrite Hs. do 2 f_equal.
    simpl in H0. assert (product S = 0) as HS by nia. rewrite HS in *.
    rewrite Nat.mul_0_r in *. simpl in Hwf. rewrite HS, Nat.mul_0_r in Hwf.
    destruct (ds_data d); [|done]. destruct (nd_flat batch); done.
  - rewrite expand_shape_same_rank, compatible_refl by done.
    rewrite Nat.eqb_refl. cbn [negb]. do 3 f_equal.
    apply broadcast_same. by rewrite length_fmap.
Qed.

Lemma compatible_cons t c ts cs :
  compatible (t :: ts) (c :: cs) = ((t =? 1) || (c =? t)) && compatible ts cs.
Proof. reflexivity. Qed.

Lemma setitem_tail_mismatch n c S S' d batch :
  shaped n S d → 0 < c ≤ n → nd_shape batch = c :: S' →
  length S' = length S → compatible S' S = false → product S ≠ 0 →
  setitem_tail c batch d = Raise TypeError.
Proof.
  intros (Hs & Hm & Hc & Hl) Hcn Hb Hlen Hcomp HS. unfold setitem_tail.
  rewrite Hs, Hb. rewrite slice_start_pos by lia.
  replace (n - (n - c)) with c by lia.
  destruct (Nat.eqb_spec (product (c :: S)) 0) as [H0|H0]; [simpl in H0; nia|].
  rewrite expand_shape_same_rank by (simpl; lia).
  by rewrite compatible_cons, Hcomp, andb_false_r.
Qed.

Lemma setitem_tail_unbroadcastable n c S d batch :
  shaped n S d → 0 < c ≤ n → product S ≠ 0 →
  expand_shape (c :: S) (nd_shape batch) = None →
  setitem_tail c batch d = Raise TypeError.
Proof.
  intros (Hs & Hm & Hc & Hl) Hcn HS He. unfold setitem_tail.
  rewrite Hs. rewrite slice_start_pos by lia.
  replace (n - (n - c)) with c by lia.
  destruct (Nat.eqb_spec (product (c :: S)) 0) as [H0|H0]; [simpl in H0; nia|].
  by rewrite He.
Qed.

Lemma setitem_tail_ok n c rest S d d2 batch :
  shaped n S d → c ≤ n → nd_shape batch = c :: rest → wf_array batch →
  setitem_tail c batch d = Return d2 →
  ∃ tl, length tl = c * product S ∧
        d2 = with_contents (n :: S) (take ((n - c) * product S) (ds_data d) ++ tl) d.
Proof.
  intros (Hs & Hm & Hc & Hl) Hcn Hb Hwf. unfold setitem_tail, wf_array in *.
  rewrite Hb in Hwf. rewrite Hs, Hb.
  assert (slice_start c n ≤ n) as Hst by (unfold slice_start; destruct (c =? 0); lia).
  set (start := slice_start c n) in *.
  destruct (Nat.eqb_spec (product (n - start :: S)) 0) as [H0|H0].
  - intros [= <-]. exists (drop ((n - c) * product S) (ds_data d)). split.
    + rewrite length_drop, Hl. simpl in H0. apply Nat.eq_mul_0 in H0 as [H0|H0].
      * assert (c = 0) by (unfold start, slice_start in *; destruct (Nat.eqb_spec c 0); lia).
        subst c. rewrite Nat.sub_0_r. lia.
      * rewrite H0. lia.
    + rewrite take_drop, <- Hs. by rewrite with_contents_id.
  - destruct (expand_shape _ _) as [tshape|] eqn:E; [|done].
    destruct (Nat.eqb_spec (product (c :: rest)) (product tshape)) as [Hp|Hp]; [|done].
    cbn [negb]. intros [= <-].
    destruct (expand_shape_sound _ _ _ E) as [HF _].
    pose proof (fills_product _ _ HF H0) as Ht.
    assert (0 < c) as Hc0.
    { destruct c; [|lia]. simpl in Hp. lia. }
    unfold start in *. rewrite slice_start_pos in * by done.
    eexists. split; [|reflexivity].
    rewrite (broadcast_length _ _ HF) by (rewrite length_fmap; congruence).
    simpl. f_equal. lia.
Qed.

End ArrayFacts.

Section ExtendFacts.
Context {V : Type}.
Implicit Types (d : Dataset V) (batch : ndarray V) (S : list nat).

Lemma with_contents_twice s1 s2 (x1 x2 : list V) d :
  with_contents s2 x2 (with_contents s1 x1 d) = with_contents s2 x2 d.
Proof. reflexivity. Qed.

Lemma setitem_tail_raise n c S d batch e :
  shaped n S d → setitem_tail c batch d = Raise e → e = TypeError.
Proof.
  intros (Hs & _). unfold setitem_tail. rewrite Hs.
  repeat case_match; congruence.
Qed.

Lemma extend_array_scalar n S d batch :
  shaped n S d → nd_shape batch = [] →
  extend_array batch d = (Raise IndexError, d).
Proof. intros (Hs & _) Hb. unfold extend_array. by rewrite Hs, Hb. Qed.

(** Whatever the outcome, a batch with a first axis leaves the array grown
    by the batch's count, the old elements in place. *)
Lemma extend_array_grows n c rest S d batch :
  shaped n S d → wf_array batch → nd_shape batch = c :: rest →
  ∃ tl, length tl = c * product S ∧
        (extend_array batch d).2 = with_contents (n + c :: S) (ds_data d ++ tl) d ∧
        ((extend_array batch d).1 = Return tt ∨
         (extend_array batch d).1 = Raise TypeError ∧
         tl = replicate (c * product S) (dt_zero (ds_dtype d))).
Proof.
  intros Hd Hwf Hb. pose proof Hd as (Hs & Hm & Hc & Hl).
  unfold extend_array. rewrite Hs, Hb, (resize_shaped n c S d Hd).
  set (d1 := with_contents _ _ d).
  assert (shaped (n + c) S d1) as Hd1.
  { apply (shaped_with_contents n); [done|]. rewrite length_app, length_replicate. lia. }
  destruct (setitem_tail c batch d1) as [d2|e] eqn:E.
  - destruct (setitem_tail_ok (n + c) c rest S d1 d2 batch Hd1 ltac:(lia) Hb Hwf E) as (tl & Htl & ->).
    exists tl. split; [done|]. split; [|by left].
    cbn [snd]. unfold d1. rewrite with_contents_twice. f_equal. cbn [ds_data with_contents].
    f_equal. replace (n + c - c) with n by lia. rewrite <- Hl. apply take_app_length.
  - apply (setitem_tail_raise _ _ _ _ _ _ Hd1) in E as ->.
    eexists. split; [apply length_replicate|]. split; [reflexivity|by right].
Qed.

Lemma extend_array_match n c S d batch :
  shaped n S d → wf_array batch → nd_shape batch = c :: S → 0 < c →
  extend_array batch d =
  (Return tt, with_contents (n + c :: S)
                (ds_data d ++ (dt_cast (ds_dtype d) <$> nd_flat batch)) d).
Proof.
  intros Hd Hwf Hb Hc0. pose proof Hd as (Hs & Hm & Hc & Hl).
  unfold extend_array. rewrite Hs, Hb, (resize_shaped n c S d Hd).
  set (d1 := with_contents _ _ d).
  assert (shaped (n + c) S d1) as Hd1.
  { apply (shaped_with_contents n); [done|]. rewrite length_app, length_replicate. lia. }
  rewrite (setitem_tail_match (n + c) c S d1 batch) by (done || lia).
  unfold d1. rewrite with_contents_twice. cbn [ds_data ds_dtype with_contents].
  do 3 f_equal. replace (n + c - c) with n by lia. rewrite <- Hl. apply take_app_length.
Qed.

Lemma extend_array_mismatch n c S S' d batch :
  shaped n S d → nd_shape batch = c :: S' → 0 < c →
  length S' = length S → compatible S' S = false → product S ≠ 0 →
  extend_array batch d =
  (Raise TypeError, with_contents (n + c :: S)
                      (ds_data d ++ replicate (c * product S) (dt_zero (ds_dtype d))) d).
Proof.
  intros Hd Hb Hc0 Hlen Hcomp HS. pose proof Hd as (Hs & Hm & Hc & Hl).
  unfold extend_array. rewrite Hs, Hb, (resize_shaped n c S d Hd).
  set (d1 := with_contents _ _ d).
  assert (shaped (n + c) S d1) as Hd1.
  { apply (shaped_with_contents n); [done|]. rewrite length_app, length_replicate. lia. }
  by rewrite (setitem_tail_mismatch (n + c) c S S' d1 batch) by (done || lia).
Qed.

Lemma extend_array_unbroadcastable n c rest S d batch :
  shaped n S d → nd_shape batch = c :: rest → 0 < c → product S ≠ 0 →
  expand_shape (c :: S) (nd_shape batch) = None →
  extend_array batch d =
  (Raise TypeError, with_contents (n + c :: S)
                      (ds_data d ++ replicate (c * product S) (dt_zero (ds_dtype d))) d).
Proof.
  intros Hd Hb Hc0 HS He. pose proof Hd as (Hs & Hm & Hc & Hl).
  unfold extend_array. rewrite Hs, Hb, (resize_shaped n c S d Hd).
  set (d1 := with_contents _ _ d).
  assert (shaped (n + c) S d1) as Hd1.
  { apply (shaped_with_contents n); [done|]. rewrite length_app, length_replicate. lia. }
  by rewrite (setitem_tail_unbroadcastable (n + c) c S d1 batch)
    by (done || lia || by rewrite Hb).
Qed.

End ExtendFacts.

(** ** The container's state *)

Ltac eff := unfold mbind, mret, Eff_bind, Eff_ret, throw, getattr, get_self, set_self, on_disk.

Section StateFacts.
Context {V : Type}.
Implicit Types (d l : Dataset V) (batch data labels : ndarray V) (st : St V)
  (fs : gmap string (gmap string (Dataset V))) (h : string * string).

Lemma lookup_store_eq fs h d0 d :
  lookup_dataset fs h = Some d0 → lookup_dataset (store_dataset h d fs) h = Some d.
Proof.
  unfold lookup_dataset, store_dataset. intros H.
  destruct (fs !! h.1) as [grp|] eqn:E; [|done].
  rewrite lookup_insert_eq. simpl. by rewrite lookup_insert_eq.
Qed.

Lemma lookup_store_ne fs h h' d :
  h ≠ h' → lookup_dataset (store_dataset h d fs) h' = lookup_dataset fs h'.
Proof.
  unfold lookup_dataset, store_dataset. intros Hne.
  destruct (fs !! h.1) as [grp|] eqn:E; [|done].
  destruct (decide (h.1 = h'.1)) as [Heq|Hneq].
  - rewrite <- Heq, lookup_insert_eq, E. simpl. rewrite lookup_insert_ne; [done|].
    intros Hn. apply Hne. destruct h, h'; simpl in *; congruence.
  - by rewrite lookup_insert_ne.
Qed.

Lemma store_store fs h d1 d2 :
  store_dataset h d2 (store_dataset h d1 fs) = store_dataset h d2 fs.
Proof.
  unfold store_dataset. destruct (fs !! h.1) as [grp|] eqn:E; [|by rewrite E].
  rewrite lookup_insert_eq. by rewrite !insert_insert_eq.
Qed.

Lemma store_id fs h d : lookup_dataset fs h = Some d → store_dataset h d fs = fs.
Proof.
  unfold lookup_dataset, store_dataset. intros H.
  destruct (fs !! h.1) as [grp|] eqn:E; [|done]. simpl in H.
  rewrite (insert_id grp) by done. by rewrite insert_id.
Qed.

Lemma extend_eq field batch st h d :
  field (self st) = Some h → lookup_dataset (disk st) h = Some d →
  extend field batch st =
  ((extend_array batch d).1,
   {| self := self st; disk := store_dataset h (extend_array batch d).2 (disk st) |}).
Proof.
  intros Hf Hd. destruct st as [s fs]. simpl in *.
  unfold extend, extend_array. eff. unfold Dataset_shape, on_dataset, iadd0, shape0. eff.
  simpl. rewrite Hf. simpl. rewrite Hd.
  destruct (ds_shape d) as [|n sample]; simpl.
  { by rewrite store_id. }
  destruct (nd_shape batch) as [|c rest]; simpl.
  { by rewrite store_id. }
  rewrite Hf. simpl. rewrite Hd.
  destruct (resize (n + c :: sample) d) as [d1|e]; simpl.
  2:{ by rewrite store_id. }
  rewrite Hf. simpl. rewrite (lookup_store_eq _ _ d) by done.
  destruct (setitem_tail c batch d1) as [d2|e]; simpl; [|done].
  by rewrite store_store.
Qed.

Lemma holds_store_data st d l d' h :
  holds st d l → dataset (self st) = Some h →
  holds {| self := self st; disk := store_dataset h d' (disk st) |} d' l.
Proof.
  intros (Hi & p & grp & Hd & Hl & Hp & Hgd & Hgl) Hh.
  rewrite Hd in Hh. injection Hh as <-.
  split; [done|]. exists p, (<["data" := d']> grp). simpl.
  unfold store_dataset. simpl. rewrite Hp.
  repeat split; try done.
  - apply lookup_insert_eq.
  - apply lookup_insert_eq.
  - by rewrite lookup_insert_ne.
Qed.

Lemma holds_store_labels st d l l' h :
  holds st d l → labelset (self st) = Some h →
  holds {| self := self st; disk := store_dataset h l' (disk st) |} d l'.
Proof.
  intros (Hi & p & grp & Hd & Hl & Hp & Hgd & Hgl) Hh.
  rewrite Hl in Hh. injection Hh as <-.
  split; [done|]. exists p, (<["labels" := l']> grp). simpl.
  unfold store_dataset. simpl. rewrite Hp.
  repeat split; try done.
  - apply lookup_insert_eq.
  - by rewrite lookup_insert_ne.
  - apply lookup_insert_eq.
Qed.

Lemma holds_data_array st d l : holds st d l → data_array st = Some d.
Proof.
  intros (Hi & p & grp & Hd & Hl & Hp & Hgd & Hgl).
  unfold data_array, lookup_dataset. rewrite Hd. simpl. rewrite Hp. done.
Qed.

Lemma holds_label_array st d l : holds st d l → label_array st = Some l.
Proof.
  intros (Hi & p & grp & Hd & Hl & Hp & Hgd & Hgl).
  unfold label_array, lookup_dataset. rewrite Hl. simpl. rewrite Hp. done.
Qed.

Lemma append_initialized data labels st :
  initialized (self st) = true →
  append data labels st = (extend dataset data ;; extend labelset labels) st.
Proof.
  intros Hi. unfold append, extend. eff. rewrite Hi. cbn [negb].
  repeat (match goal with
          | |- context [match ?x with _ => _ end] => destruct x eqn:?
          | |- context [let (_, _) := ?x in _] => destruct x eqn:?
          end; try done).
Qed.

(** [append] on an initialized container is [append_arrays] on its arrays. *)
Lemma append_holds st d l data labels :
  holds st d l →
  ∃ st', append data labels st = ((append_arrays data labels d l).1.1, st') ∧
         holds st' (append_arrays data labels d l).1.2 (append_arrays data labels d l).2 ∧
         self st' = self st.
Proof.
  intros H. pose proof H as (Hi & p & grp & Hd & Hl & Hp & Hgd & Hgl).
  pose proof (holds_data_array _ _ _ H) as Hda. unfold data_array in Hda.
  rewrite Hd in Hda. simpl in Hda.
  rewrite append_initialized by done. unfold append_arrays.
  unfold mbind, Eff_bind. rewrite (extend_eq _ _ _ _ _ Hd Hda).
  pose proof (holds_store_data _ _ _ (extend_array data d).2 _ H Hd) as H1.
  destruct (extend_array data d) as [[[]|e] d']; simpl in *.
  2:{ eexists. split; [reflexivity|]. split; done. }
  pose proof (holds_label_array _ _ _ H1) as Hla. unfold label_array in Hla.
  simpl in Hla. rewrite Hl in Hla. simpl in Hla.
  rewrite (extend_eq labelset labels _ (p, "labels") l) by done.
  pose proof (holds_store_labels _ _ _ (extend_array labels l).2 _ H1 Hl) as H2.
  destruct (extend_array labels l) as [r l']; simpl in *.
  eexists. split; [reflexivity|]. split; done.
Qed.

Lemma create_dataset_ok fs f grp name dt comp batch :
  fs !! f = Some grp → grp !! name = None →
  nd_shape batch ≠ [] → compression_available comp = true →
  create_dataset f name (nd_shape batch) dt
    (None :: (Some <$> tail (nd_shape batch))) batch true comp fs =
  (Return (f, name), <[f := <[name := init_array dt comp batch]> grp]> fs).
Proof.
  intros Hf Hn Hs Hc. unfold create_dataset. rewrite Hf, Nat.eqb_refl, Hc, Hn.
  destruct (nd_shape batch) as [|c S] eqn:E; [done|].
  cbn [tail length negb scalar_with_options]. rewrite length_fmap, Nat.eqb_refl.
  cbn [fits negb andb]. rewrite fits_fixed. cbn [negb].
  rewrite bool_decide_eq_false_2 by (by intros [? ?]).
  unfold init_array. by rewrite E.
Qed.

Lemma create_dataset_raises fs f name dt comp batch :
  nd_shape batch = [] ∨ compression_available comp = false →
  ∃ e, create_dataset f name (nd_shape batch) dt
         (None :: (Some <$> tail (nd_shape batch))) batch true comp fs = (Raise e, fs).
Proof.
  intros H. unfold create_dataset. destruct (fs !! f); [|by eexists].
  rewrite Nat.eqb_refl. cbn [negb].
  destruct H as [-> | ->]; [by eexists|].
  destruct (scalar_with_options _ _ _ _); [by eexists|].
  destruct (negb _); by eexists.
Qed.

(** The first [append] on a container inside its [with] block. *)
Lemma append_first_ok st data labels :
  Entered st → nd_shape data ≠ [] → nd_shape labels ≠ [] →
  compression_available (compression (self st)) = true →
  ∃ st', append data labels st = (Return tt, st') ∧
         holds st' (init_array (data_type (self st)) (compression (self st)) data)
                   (init_array (label_type (self st)) (compression (self st)) labels).
Proof.
  intros (Hi & p & Hf & Hp) Hd Hl Hc. destruct st as [s fs]. simpl in *.
  unfold append, _init. eff. simpl. rewrite Hi. simpl. rewrite Hf.
  rewrite (create_dataset_ok fs p ∅ "data") by done. simpl. rewrite Hf.
  rewrite (create_dataset_ok _ p
             (<["data" := init_array (data_type s) (compression s) data]> ∅) "labels");
    [|apply lookup_insert_eq|by rewrite lookup_insert_ne|done..].
  eexists. split; [reflexivity|]. split; [done|]. simpl.
  eexists p, _. repeat split; try apply lookup_insert_eq.
  rewrite lookup_insert_ne by done. apply lookup_insert_eq.
Qed.

Lemma append_first_raises st data labels :
  Entered st →
  nd_shape data = [] ∨ nd_shape labels = [] ∨
    compression_available (compression (self st)) = false →
  ∃ e, (append data labels st).1 = Raise e.
Proof.
  intros (Hi & p & Hf & Hp) H. destruct st as [s fs]. simpl in *.
  unfold append, _init. eff. simpl. rewrite Hi. simpl. rewrite Hf. cbn [disk self].
  destruct (decide (nd_shape data = [])) as [Ed|Ed].
  { destruct (create_dataset_raises fs p "data" (data_type s) (compression s) data) as [e He];
      [by left|]. rewrite He. by eexists. }
  destruct (compression_available (compression s)) eqn:Ec.
  2:{ destruct (create_dataset_raises fs p "data" (data_type s) (compression s) data) as [e He];
      [by right|]. rewrite He. by eexists. }
  destruct H as [H|[H|H]]; [done| |done].
  rewrite (create_dataset_ok fs p ∅ "data") by done. simpl. rewrite Hf. cbn [disk self].
  destruct (create_dataset_raises (<[p:=<["data":=init_array (data_type s) (compression s) data]> ∅]> fs)
              p "labels" (label_type s) (compression s) labels) as [e He]; [by left|].
  rewrite He. by eexists.
Qed.

Lemma append_first_inv st st' data labels :
  Entered st → append data labels st = (Return tt, st') →
  nd_shape data ≠ [] ∧ nd_shape labels ≠ [] ∧
  holds st' (init_array (data_type (self st)) (compression (self st)) data)
            (init_array (label_type (self st)) (compression (self st)) labels).
Proof.
  intros He Hr.
  destruct (nd_shape data) as [|c S] eqn:Ed.
  { destruct (append_first_raises st data labels He) as [e H]; [by left|].
    rewrite Hr in H. done. }
  destruct (nd_shape labels) as [|c' S'] eqn:El.
  { destruct (append_first_raises st data labels He) as [e H]; [by right; left|].
    rewrite Hr in H. done. }
  destruct (compression_available (compression (self st))) eqn:Ec.
  2:{ destruct (append_first_raises st data labels He) as [e H]; [by right; right|].
    rewrite Hr in H. done. }
  destruct (append_first_ok st data labels He) as (st'' & Hr' & Hh);
    [by rewrite Ed|by rewrite El|done|].
  rewrite Hr in Hr'. injection Hr' as <-. done.
Qed.

Lemma init_array_shaped dt comp batch c S :
  nd_shape batch = c :: S → wf_array batch → shaped c S (init_array dt comp batch).
Proof.
  intros Hs Hwf. unfold shaped, init_array. simpl. rewrite Hs. simpl.
  repeat split. rewrite length_fmap. unfold wf_array in Hwf. by rewrite Hwf, Hs.
Qed.

End StateFacts.

(** ** Construction and metadata *)

Section MetadataFacts.
Context {V : Type}.
Implicit Types (d l : Dataset V) (st : St V) (info : list (string * pyval)).

Lemma init_pure filename (dt lt : dtype V) comp fs :
  (__init__ filename dt lt comp fs).2 = fs.
Proof. unfold __init__. by destruct (negb _). Qed.

Lemma init_accepts filename (dt lt : dtype V) comp fs s fs' :
  __init__ filename dt lt comp fs = (Return s, fs') →
  str_contains ".hdf5" filename = true ∧ fs' = fs ∧
  s = mk_self filename dt lt comp false None None None.
Proof.
  unfold __init__. destruct (str_contains ".hdf5" filename); simpl; [|done].
  by intros [= <- <-].
Qed.

Lemma enter_entered filename (dt lt : dtype V) comp fs s fs' :
  __init__ filename dt lt comp fs = (Return s, fs') →
  (__enter__ {| self := s; disk := fs' |}).1 = Return tt ∧
  Entered (__enter__ {| self := s; disk := fs' |}).2 ∧
  disk (__enter__ {| self := s; disk := fs' |}).2 = <[filename := ∅]> fs.
Proof.
  intros (_ & -> & ->)%init_accepts. unfold __enter__, File_w. eff. simpl.
  repeat split. exists filename. split; [done|]. apply lookup_insert_eq.
Qed.

Lemma add_metadata_uninitialized st info :
  dataset (self st) = None → add_metadata info st = (Raise AttributeError, st).
Proof. intros H. unfold add_metadata. eff. by rewrite H. Qed.

Lemma never_appended_no_dataset st : never_appended st → dataset (self st) = None.
Proof.
  induction 1 as [filename dt lt comp fs s fs' H|st _ IH|st info _ IH].
  - by apply init_accepts in H as (_ & _ & ->).
  - unfold __enter__, File_w. eff. simpl. done.
  - by rewrite add_metadata_uninitialized.
Qed.

Lemma with_attrs_id d : with_attrs (ds_attrs d) d = d.
Proof. by destruct d. Qed.

Lemma with_attrs_twice (a1 a2 : gmap string string) d :
  with_attrs a2 (with_attrs a1 d) = with_attrs a2 d.
Proof. reflexivity. Qed.

Lemma c_string_id k : has_nul k = false → c_string k = k.
Proof.
  induction k as [|a k IH]; [done|]. cbn [has_nul c_string].
  intros [Ha Hk]%orb_false_iff. rewrite Ha. by rewrite IH.
Qed.

Lemma attr_ok_valid k v :
  k ≠ "" → has_nul k = false → has_nul v = false → attr_ok k v = true.
Proof.
  intros Hk Hn Hv. unfold attr_ok. rewrite (c_string_id k Hn), Hv.
  destruct (String.eqb_spec k ""); done.
Qed.

(** One attribute assignment on an initialized container: refused or stored. *)
Lemma attrs_set_holds st d l k v :
  holds st d l →
  ∃ st', (d' ← getattr dataset; on_disk (on_dataset d' (attrs_set k v))) st =
           (if attr_ok k v then Return tt else Raise ValueError, st') ∧
         holds st' (with_attrs (if attr_ok k v then <[c_string k := v]> (ds_attrs d)
                                else ds_attrs d) d) l ∧
         self st' = self st.
Proof.
  intros H. pose proof H as (Hi & p & grp & Hd & Hl & Hp & Hgd & Hgl).
  pose proof (holds_data_array _ _ _ H) as Hda. unfold data_array in Hda.
  rewrite Hd in Hda. simpl in Hda.
  eff. unfold on_dataset, attrs_set. rewrite Hd. cbn [disk self]. rewrite Hda.
  destruct (attr_ok k v).
  - eexists. split; [reflexivity|]. split; [|done].
    by apply (holds_store_data st d l).
  - exists st. rewrite with_attrs_id. by destruct st.
Qed.

Lemma metadata_result_cons k v info :
  metadata_result ((k, v) :: info) =
  if attr_ok k (str v) then metadata_result info else Raise ValueError.
Proof. unfold metadata_result. simpl. by destruct (attr_ok k (str v)). Qed.

Lemma metadata_loop info : ∀ st d l,
  holds st d l →
  ∃ st', for_each info (λ '(k, v),
           d' ← getattr dataset; on_disk (on_dataset d' (attrs_set k (str v)))) st
         = (metadata_result info, st') ∧
         holds st' (with_attrs (items_attrs info (ds_attrs d)) d) l ∧
         self st' = self st.
Proof.
  induction info as [|[k v] info IH]; intros st d l H.
  - exists st. split; [done|]. split; [|done]. cbn [items_attrs]. by rewrite with_attrs_id.
  - destruct (attrs_set_holds st d l k (str v) H) as (st1 & E1 & H1 & Hs1).
    rewrite metadata_result_cons. cbn [items_attrs for_each].
    unfold mbind at 1, Eff_bind at 1. rewrite E1.
    destruct (attr_ok k (str v)).
    + destruct (IH _ _ _ H1) as (st2 & E2 & H2 & Hs2).
      exists st2. split; [exact E2|]. split; [exact H2|congruence].
    + exists st1. done.
Qed.

(** [add_metadata] on an initialized container: its result and the
    attributes it leaves. *)
Lemma add_metadata_holds st d l info :
  holds st d l →
  ∃ st', add_metadata info st = (metadata_result info, st') ∧
         holds st' (with_attrs (metadata_attrs info (ds_attrs d)) d) l ∧
         self st' = self st.
Proof.
  intros H.
  destruct (attrs_set_holds st d l "version" VERSION H) as (st1 & E1 & H1 & Hs1).
  change (attr_ok "version" VERSION) with true in E1, H1. cbv iota in E1, H1.
  change (c_string "version") with "version" in H1.
  destruct (metadata_loop info _ _ _ H1) as (st2 & E2 & H2 & Hs2).
  exists st2. split; [|split; [|congruence]].
  - unfold add_metadata. revert E1. eff. intros E1.
    destruct (dataset (self st)) as [h|]; [|done]. simpl in *.
    destruct (on_dataset h (attrs_set "version" VERSION) (disk st)) as [[[]|e] fs1]; [|done].
    injection E1 as <-. exact E2.
  - exact H2.
Qed.

Lemma items_attrs_other info : ∀ (attrs : gmap string string) k,
  k ∉ c_string <$> info.*1 → items_attrs info attrs !! k = attrs !! k.
Proof.
  induction info as [|[k' v] info IH]; intros attrs k Hk; [done|].
  cbn [items_attrs]. cbn in Hk. apply not_elem_of_cons in Hk as [Hne Hk].
  destruct (attr_ok k' (str v)); [|done].
  rewrite IH by done. by rewrite lookup_insert_ne.
Qed.

Lemma metadata_attrs_version info (attrs : gmap string string) :
  "version" ∉ c_string <$> info.*1 → metadata_attrs info attrs !! "version" = Some VERSION.
Proof.
  intros H. unfold metadata_attrs. rewrite items_attrs_other by done.
  apply lookup_insert_eq.
Qed.

Lemma storable_result info : storable info → metadata_result info = Return tt.
Proof.
  induction 1 as [|[k v] info (Hk & Hn & Hv) _ IH]; [done|].
  rewrite metadata_result_cons. by rewrite attr_ok_valid.
Qed.

Lemma nul_free_names (info : list (string * pyval)) :
  Forall (λ kv, has_nul kv.1 = false) info → c_string <$> info.*1 = info.*1.
Proof.
  induction 1 as [|[k v] info Hn _ IH]; [done|].
  cbn. rewrite IH. by rewrite (c_string_id k).
Qed.

Lemma storable_nul_free info : storable info → Forall (λ kv, has_nul kv.1 = false) info.
Proof. intros H. eapply Forall_impl; [exact H|]. by intros kv (_ & ? & _). Qed.

(** In a dictionary every key is bound once: its binding is what the loop
    leaves. *)
Lemma items_attrs_lookup info : ∀ (attrs : gmap string string) k v,
  storable info → NoDup info.*1 → (k, v) ∈ info →
  items_attrs info attrs !! k = Some (str v).
Proof.
  induction info as [|[k' v'] info IH]; intros attrs k v Hst Hnd Hin.
  - by apply elem_of_nil in Hin.
  - apply Forall_cons in Hst as [(Hk & Hn & Hv) Hst]. cbn in Hk, Hn, Hv, Hnd.
    apply NoDup_cons in Hnd as [Hk' Hnd].
    cbn [items_attrs]. rewrite attr_ok_valid, (c_string_id k') by done.
    apply elem_of_cons in Hin as [[= -> ->]|Hin].
    + rewrite items_attrs_other; [apply lookup_insert_eq|].
      by rewrite (nul_free_names info (storable_nul_free info Hst)).
    + by apply IH.
Qed.

Lemma metadata_attrs_single k v (attrs : gmap string string) :
  k ≠ "" → has_nul k = false → has_nul (str v) = false →
  metadata_attrs [(k, v)] attrs !! k = Some (str v).
Proof.
  intros Hk Hn Hv. unfold metadata_attrs. cbn [items_attrs].
  rewrite attr_ok_valid, (c_string_id k) by done. apply lookup_insert_eq.
Qed.

End MetadataFacts.

(** ** Invariants of [append] *)

Section AppendFacts.
Context {V : Type}.
Implicit Types (d l : Dataset V) (batch data labels : ndarray V) (st : St V) (S T : list nat).

Lemma chunk_app_l n k (x y : list V) :
  (1 + k) * n ≤ length x → chunk n k (x ++ y) = chunk n k x.
Proof.
  intros H. unfold chunk. rewrite drop_app_le by lia.
  apply take_app_le. rewrite length_drop. lia.
Qed.

Lemma chunk_shift n j k (x y : list V) :
  length x = k * n → chunk n (k + j) (x ++ y) = chunk n j y.
Proof.
  intros H. unfold chunk. f_equal.
  replace ((k + j) * n) with (length x + j * n) by lia.
  by rewrite drop_app_add.
Qed.


Lemma shaped_with_attrs n S d attrs : shaped n S d → shaped n S (with_attrs attrs d).
Proof. done. Qed.

Lemma shaped_inj n m S T d : shaped n S d → shaped m T d → n = m ∧ S = T.
Proof. intros (H1 & _) (H2 & _). rewrite H1 in H2. by injection H2. Qed.

Lemma Ready_arrays S T st d l :
  Ready S T st → data_array st = Some d → label_array st = Some l →
  holds st d l ∧ wf_dataset S d ∧ wf_dataset T l.
Proof.
  intros (d0 & l0 & H & Hd & Hl) Ed El.
  rewrite (holds_data_array _ _ _ H) in Ed. rewrite (holds_label_array _ _ _ H) in El.
  by injection Ed as <-; injection El as <-.
Qed.

(** One array after [extend], whatever the outcome. *)
Lemma extend_array_shaped n S d batch :
  shaped n S d → wf_array batch →
  shaped (n + match (extend_array batch d).1 with
              | Raise IndexError => 0
              | _ => batch_count batch
              end) S (extend_array batch d).2 ∧
  ds_data d `prefix_of` ds_data (extend_array batch d).2 ∧
  ds_attrs (extend_array batch d).2 = ds_attrs d ∧
  ds_dtype (extend_array batch d).2 = ds_dtype d.
Proof.
  intros Hd Hwf. destruct (nd_shape batch) as [|c rest] eqn:Hb.
  - rewrite (extend_array_scalar n S d batch) by done. simpl.
    rewrite Nat.add_0_r. repeat split; try apply Hd. done.
  - destruct (extend_array_grows n c rest S d batch Hd Hwf Hb) as (tl & Htl & -> & Hr).
    assert (batch_count batch = c) as Hc by (unfold batch_count; by rewrite Hb).
    split; [|split; [by eexists|done]].
    destruct Hr as [-> | [-> _]]; rewrite Hc;
      (apply (shaped_with_contents n); [done|]);
      rewrite length_app, Htl; destruct Hd as (_ & _ & _ & ->); lia.
Qed.

Lemma extend_array_wf S d batch :
  wf_dataset S d → wf_array batch → wf_dataset S (extend_array batch d).2.
Proof. intros [n Hd] Hwf. eexists. apply (extend_array_shaped n S d batch Hd Hwf). Qed.

Lemma append_arrays_wf S T d l data labels :
  wf_dataset S d → wf_dataset T l → wf_array data → wf_array labels →
  wf_dataset S (append_arrays data labels d l).1.2 ∧
  wf_dataset T (append_arrays data labels d l).2.
Proof.
  intros Hd Hl Hwd Hwl. unfold append_arrays.
  pose proof (extend_array_wf S d data Hd Hwd) as H1.
  pose proof (extend_array_wf T l labels Hl Hwl) as H2.
  destruct (extend_array data d) as [[[]|e] d']; simpl in *; [|done].
  destruct (extend_array labels l) as [r l']; simpl in *. done.
Qed.

(** The per-sample shapes never change once fixed. *)
Lemma append_Ready S T st data labels :
  Ready S T st → wf_array data → wf_array labels →
  Ready S T (append data labels st).2.
Proof.
  intros (d & l & H & Hd & Hl) Hwd Hwl.
  destruct (append_holds st d l data labels H) as (st' & -> & H' & _).
  destruct (append_arrays_wf S T d l data labels) as [? ?]; try done.
  eexists _, _. split; [exact H'|]. done.
Qed.

Lemma add_metadata_Ready S T st info :
  Ready S T st → Ready S T (add_metadata info st).2.
Proof.
  intros (d & l & H & [n Hd] & Hl).
  destruct (add_metadata_holds st d l info H) as (st' & -> & H' & _).
  eexists _, _. split; [exact H'|]. split; [|done]. exists n. by apply shaped_with_attrs.
Qed.

Lemma later_Ready S T st st' : Ready S T st → later st st' → Ready S T st'.
Proof.
  intros H. induction 1 as [|st' data labels _ IH Hwd Hwl|st' info _ IH].
  - done.
  - by apply append_Ready.
  - by apply add_metadata_Ready.
Qed.

Lemma append_first_Ready st st' data labels c c' S T :
  Entered st → wf_array data → wf_array labels →
  nd_shape data = c :: S → nd_shape labels = c' :: T →
  append data labels st = (Return tt, st') → Ready S T st'.
Proof.
  intros He Hwd Hwl Hd Hl Hr.
  destruct (append_first_inv st st' data labels He Hr) as (_ & _ & H).
  eexists _, _. split; [exact H|].
  split; eexists; by apply init_array_shaped.
Qed.

(** A returning [append]: each array grown by its own batch's count, the old
    elements in place. *)
Lemma append_arrays_ok n m S T d l data labels :
  shaped n S d → shaped m T l → wf_array data → wf_array labels →
  (append_arrays data labels d l).1.1 = Return tt →
  ∃ tl1 tl2,
    (append_arrays data labels d l).1.2 =
      with_contents (n + batch_count data :: S) (ds_data d ++ tl1) d ∧
    (append_arrays data labels d l).2 =
      with_contents (m + batch_count labels :: T) (ds_data l ++ tl2) l.
Proof.
  intros Hd Hl Hwd Hwl. unfold append_arrays.
  destruct (nd_shape data) as [|c rest] eqn:Ed.
  { rewrite (extend_array_scalar n S d data) by done. done. }
  destruct (extend_array_grows n c rest S d data Hd Hwd Ed) as (tl1 & _ & H1 & _).
  destruct (nd_shape labels) as [|c' rest'] eqn:El.
  { rewrite (extend_array_scalar m T l labels) by done.
    destruct (extend_array data d) as [[[]|e] d']; done. }
  destruct (extend_array_grows m c' rest' T l labels Hl Hwl El) as (tl2 & _ & H2 & _).
  destruct (extend_array data d) as [[[]|e] d']; simpl in *; [|done].
  destruct (extend_array labels l) as [r l']; simpl in *. intros ->.
  exists tl1, tl2. unfold batch_count. rewrite Ed, El. simpl. by subst.
Qed.

End AppendFacts.

(** ** Broadcasting writes and the outcome of [append] *)

Section BroadcastWrites.
Context {V : Type}.
Implicit Types (d l : Dataset V) (batch data labels : ndarray V) (st : St V) (S T : list nat).

Lemma compatible_fills S' : ∀ S,
  length S' = length S → compatible S' S = true → Forall2 fills S' S.
Proof.
  induction S' as [|t S' IH]; intros [|c S] Hl Hc; try done.
  rewrite compatible_cons in Hc. apply andb_true_iff in Hc as [Ht Hc].
  constructor; [|apply IH; [simpl in Hl; lia|done]].
  apply orb_true_iff in Ht as [Ht|Ht]; apply Nat.eqb_eq in Ht; [by left|by right].
Qed.

Lemma setitem_tail_compatible n c S S' d batch :
  shaped n S d → 0 < c ≤ n → nd_shape batch = c :: S' → wf_array batch →
  length S' = length S → compatible S' S = true →
  setitem_tail c batch d =
  Return (with_contents (n :: S)
            (take ((n - c) * product S) (ds_data d) ++
             broadcast (c :: S') (c :: S) (dt_cast (ds_dtype d) <$> nd_flat batch)) d).
Proof.
  intros (Hs & Hm & Hc & Hl) Hcn Hb Hwf Hlen Hcomp. unfold setitem_tail, wf_array in *.
  rewrite Hb in Hwf. rewrite Hs, Hb. rewrite slice_start_pos by lia.
  replace (n - (n - c)) with c by lia.
  assert (Forall2 fills (c :: S') (c :: S)) as HF.
  { constructor; [by right|by apply compatible_fills]. }
  pose proof (broadcast_length _ _ HF (dt_cast (ds_dtype d) <$> nd_flat batch)) as Hbl.
  rewrite length_fmap in Hbl. specialize (Hbl Hwf).
  destruct (Nat.eqb_spec (product (c :: S)) 0) as [H0|H0].
  - rewrite H0 in Hbl. apply nil_length_inv in Hbl. rewrite Hbl, app_nil_r.
    rewrite <- (with_contents_id d) at 1. rewrite Hs. f_equal. f_equal.
    assert (product S = 0) as HS by (simpl in H0; nia).
    rewrite HS, Nat.mul_0_r in *. destruct (ds_data d); done.
  - rewrite expand_shape_same_rank by (simpl; lia).
    rewrite compatible_cons, Hcomp, Nat.eqb_refl, orb_true_r. cbn [andb].
    by rewrite Nat.eqb_refl.
Qed.

Lemma extend_array_compatible n c S S' d batch :
  shaped n S d → wf_array batch → nd_shape batch = c :: S' → 0 < c →
  length S' = length S → compatible S' S = true →
  extend_array batch d =
  (Return tt, with_contents (n + c :: S)
                (ds_data d ++
                 broadcast (c :: S') (c :: S) (dt_cast (ds_dtype d) <$> nd_flat batch)) d).
Proof.
  intros Hd Hwf Hb Hc0 Hlen Hcomp. pose proof Hd as (Hs & Hm & Hc & Hl).
  unfold extend_array. rewrite Hs, Hb, (resize_shaped n c S d Hd).
  set (d1 := with_contents _ _ d).
  assert (shaped (n + c) S d1) as Hd1.
  { apply (shaped_with_contents n); [done|]. rewrite length_app, length_replicate. lia. }
  rewrite (setitem_tail_compatible (n + c) c S S' d1 batch) by (done || lia).
  unfold d1. rewrite with_contents_twice. cbn [ds_data ds_dtype with_contents].
  do 3 f_equal. replace (n + c - c) with n by lia. rewrite <- Hl. apply take_app_length.
Qed.

(** The outcome of a later [append] of non-empty batches of the fixed
    ranks, the fixed extents being non-zero. *)
Lemma append_outcome n m c c' S T S' T' st d l data labels :
  holds st d l → shaped n S d → shaped m T l →
  wf_array data → wf_array labels →
  nd_shape data = c :: S' → nd_shape labels = c' :: T' → 0 < c → 0 < c' →
  length S' = length S → length T' = length T →
  product S ≠ 0 → product T ≠ 0 →
  (append data labels st).1 =
  if compatible S' S && compatible T' T then Return tt else Raise TypeError.
Proof.
  intros H Hd Hl Hwd Hwl Ed El Hc Hc' HlS HlT HS HT.
  destruct (append_holds st d l data labels H) as (st' & -> & _). cbn [fst].
  unfold append_arrays.
  destruct (compatible S' S) eqn:CS.
  - rewrite (extend_array_compatible n c S S' d data) by done.
    destruct (compatible T' T) eqn:CT.
    + by rewrite (extend_array_compatible m c' T T' l labels) by done.
    + by rewrite (extend_array_mismatch m c' T T' l labels) by done.
  - by rewrite (extend_array_mismatch n c S S' d data) by done.
Qed.

End BroadcastWrites.

(** * The claims *)

(** ** Counts *)

Section Counting.
Context {V : Type}.
Implicit Types (d l : Dataset V) (data labels : ndarray V) (st : St V) (S T : list nat).

Lemma appends_cons data labels rest st :
  appends ((data, labels) :: rest) st =
  match append data labels st with
  | (Return _, st1) => appends rest st1
  | (Raise e, st1) => (Raise e, st1)
  end.
Proof. reflexivity. Qed.

Lemma appends_counts rest : ∀ st st' d l n m S T,
  holds st d l → shaped n S d → shaped m T l →
  Forall (λ b, wf_array b.1 ∧ wf_array b.2) rest →
  appends rest st = (Return tt, st') →
  ∃ d' l', holds st' d' l' ∧
           shaped (n + sum_list (batch_count <$> rest.*1)) S d' ∧
           shaped (m + sum_list (batch_count <$> rest.*2)) T l'.
Proof.
  induction rest as [|[data labels] rest IH]; intros st st' d l n m S T H Hd Hl Hwf Hr.
  - injection Hr as <-. exists d, l. simpl. by rewrite !Nat.add_0_r.
  - apply Forall_cons in Hwf as [[Hwd Hwl] Hwf]. simpl in Hwd, Hwl.
    rewrite appends_cons in Hr.
    destruct (append_holds st d l data labels H) as (st1 & E & H1 & _).
    rewrite E in Hr.
    destruct ((append_arrays data labels d l).1.1) as [[]|e] eqn:Er; [|done].
    destruct (append_arrays_ok n m S T d l data labels Hd Hl Hwd Hwl Er)
      as (tl1 & tl2 & E1 & E2).
    destruct (append_arrays_wf S T d l data labels) as [[n1 Hd1] [m1 Hl1]];
      [by eexists..|done|done|].
    assert (n1 = n + batch_count data) as ->.
    { destruct Hd1 as (Hs & _). rewrite E1 in Hs. by injection Hs. }
    assert (m1 = m + batch_count labels) as ->.
    { destruct Hl1 as (Hs & _). rewrite E2 in Hs. by injection Hs. }
    destruct (IH _ _ _ _ _ _ _ _ H1 Hd1 Hl1 Hwf Hr) as (d' & l' & H' & Hd' & Hl').
    exists d', l'. split; [done|]. cbn [fmap list_fmap sum_list sum_list_with fst snd].
    simpl. by rewrite !Nat.add_assoc.
Qed.

End Counting.

(** C2 — Count accumulation.  For every non-empty sequence of appends that
    all return, started on a container inside its [with] block, the data
    array's sample count is the sum of the data batches' sample counts and
    the label array's sample count is the sum of the label batches' sample
    counts, each computed from its own batches only. *)
Theorem count_accumulation {V} (st st' : St V) (batches : list (ndarray V * ndarray V)) :
  Entered st → batches ≠ [] →
  Forall (λ b, wf_array b.1 ∧ wf_array b.2) batches →
  appends batches st = (Return tt, st') →
  ∃ d l, data_array st' = Some d ∧ label_array st' = Some l ∧
         count d = sum_list (batch_count <$> batches.*1) ∧
         count l = sum_list (batch_count <$> batches.*2).
Proof.
  intros He Hne Hwf Hr. destruct batches as [|[data labels] rest]; [done|].
  apply Forall_cons in Hwf as [[Hwd Hwl] Hwf]. simpl in Hwd, Hwl.
  rewrite appends_cons in Hr.
  destruct (append data labels st) as [[[]|e] st1] eqn:E; [|done].
  destruct (append_first_inv st st1 data labels He E) as (Hd & Hl & H1).
  destruct (nd_shape data) as [|c S] eqn:Ed; [done|].
  destruct (nd_shape labels) as [|c' T] eqn:El; [done|].
  pose proof (init_array_shaped (data_type (self st)) (compression (self st)) data c S Ed Hwd) as Hd1.
  pose proof (init_array_shaped (label_type (self st)) (compression (self st)) labels c' T El Hwl) as Hl1.
  destruct (appends_counts rest _ _ _ _ _ _ _ _ H1 Hd1 Hl1 Hwf Hr) as (d' & l' & H' & Hd' & Hl').
  exists d', l'.
  split; [by apply (holds_data_array _ _ _ H')|].
  split; [by apply (holds_label_array _ _ _ H')|].
  destruct Hd' as (Hs1 & _), Hl' as (Hs2 & _). unfold count. rewrite Hs1, Hs2.
  simpl. assert (batch_count data = c) as -> by (unfold batch_count; by rewrite Ed).
  assert (batch_count labels = c') as -> by (unfold batch_count; by rewrite El).
  done.
Qed.

Lemma count_accumulation_witness :
  ∃ d l,
    data_array (appends [(Example.rows 2 3 0, Example.rows 2 1 100);
                         (Example.rows 1 3 10, Example.rows 4 1 200)] Example.entered).2 = Some d ∧
    label_array (appends [(Example.rows 2 3 0, Example.rows 2 1 100);
                          (Example.rows 1 3 10, Example.rows 4 1 200)] Example.entered).2 = Some l ∧
    count d = 3 ∧ count l = 6.
Proof.
  apply (count_accumulation Example.entered _
           [(Example.rows 2 3 0, Example.rows 2 1 100);
            (Example.rows 1 3 10, Example.rows 4 1 200)]).
  - split; [reflexivity|]. exists "test.hdf5". split; reflexivity.
  - discriminate.
  - repeat constructor.
  - vm_compute. reflexivity.
Defined.

(** ** Rows *)

Section Rows.
Context {V : Type}.
Implicit Types (d l : Dataset V) (batch data labels : ndarray V) (st : St V) (S T : list nat).

Lemma append_arrays_return data labels d l :
  (append_arrays data labels d l).1.1 = Return tt →
  (extend_array data d).1 = Return tt ∧ (extend_array labels l).1 = Return tt ∧
  (append_arrays data labels d l).1.2 = (extend_array data d).2 ∧
  (append_arrays data labels d l).2 = (extend_array labels l).2.
Proof.
  unfold append_arrays.
  destruct (extend_array data d) as [[[]|e] d']; simpl; [|done].
  destruct (extend_array labels l) as [r l']; simpl. by intros ->.
Qed.

(** Rows below the old count are the old rows. *)
Lemma extend_array_prefix n S d batch i :
  shaped n S d → wf_array batch → i < n →
  row (extend_array batch d).2 i = row d i.
Proof.
  intros Hd Hwf Hi.
  destruct (extend_array_shaped n S d batch Hd Hwf) as ((Hs' & _) & [tl Hp] & _).
  destruct Hd as (Hs & _ & _ & Hl).
  unfold row, sample_shape. rewrite Hs', Hs, Hp. simpl.
  apply chunk_app_l. rewrite Hl. nia.
Qed.


End Rows.

(** C3 — Prefix preservation.  For every append that returns on an
    initialized container and every row index below the array's sample
    count before the append, the row is the same after the append as
    before, in the data array and in the label array. *)
Theorem prefix_preservation {V} (S T : list nat) (st st' : St V)
    (data labels : ndarray V) (d l : Dataset V) :
  Ready S T st → data_array st = Some d → label_array st = Some l →
  wf_array data → wf_array labels →
  append data labels st = (Return tt, st') →
  ∃ d' l', data_array st' = Some d' ∧ label_array st' = Some l' ∧
           (∀ i, i < count d → row d' i = row d i) ∧
           (∀ i, i < count l → row l' i = row l i).
Proof.
  intros HR Ed El Hwd Hwl Hr.
  destruct (Ready_arrays S T st d l HR Ed El) as (H & [n Hd] & [m Hl]).
  destruct (append_holds st d l data labels H) as (st1 & E & H1 & _).
  rewrite E in Hr. injection Hr as Hr <-.
  destruct (append_arrays_return data labels d l Hr) as (_ & _ & E1 & E2).
  rewrite E1, E2 in H1.
  exists (extend_array data d).2, (extend_array labels l).2.
  split; [by apply (holds_data_array _ _ _ H1)|].
  split; [by apply (holds_label_array _ _ _ H1)|].
  assert (count d = n) as -> by (unfold count; by destruct Hd as (-> & _)).
  assert (count l = m) as -> by (unfold count; by destruct Hl as (-> & _)).
  split; intros i Hi.
  - by apply (extend_array_prefix n S).
  - by apply (extend_array_prefix m T).
Qed.

Lemma Ready_st23 : Ready [3] [1] Example.st23.
Proof.
  eexists _, _. split; [split; [reflexivity|]|].
  - exists "test.hdf5". eexists. repeat split; vm_compute; reflexivity.
  - split; eexists; repeat split.
Qed.

Lemma prefix_preservation_witness :
  ∃ d' l',
    data_array (append (Example.rows 1 3 10) (Example.rows 1 1 200) Example.st23).2 = Some d' ∧
    label_array (append (Example.rows 1 3 10) (Example.rows 1 1 200) Example.st23).2 = Some l' ∧
    (∀ i, i < 2 → row d' i = row Example.data23 i) ∧
    (∀ i, i < 2 → row l' i = row Example.labels23 i).
Proof.
  apply (prefix_preservation [3] [1] Example.st23 _
           (Example.rows 1 3 10) (Example.rows 1 1 200) Example.data23 Example.labels23).
  - apply Ready_st23.
  - vm_compute. reflexivity.
  - vm_compute. reflexivity.
  - reflexivity.
  - reflexivity.
  - vm_compute. reflexivity.
Defined.





(** Scenario A, evaluated: shapes (18,10) and (18,5); rows 0-9 are the first
    batch and rows 10-17 the second. *)
Lemma scenario_A_rows :
  Example.scenario_A.1 = Return tt ∧
  ∃ d l, data_array Example.scenario_A.2 = Some d ∧
         label_array Example.scenario_A.2 = Some l ∧
         ds_shape d = [18; 10] ∧ ds_shape l = [18; 5] ∧
         Forall (λ i, row d i = batch_row (Example.rows 10 10 0) i ∧
                      row l i = batch_row (Example.rows 10 5 0) i) (seq 0 10) ∧
         Forall (λ i, row d (10 + i) = batch_row (Example.rows 8 10 0) i ∧
                      row l (10 + i) = batch_row (Example.rows 8 5 0) i) (seq 0 8).
Proof.
  split; [vm_compute; reflexivity|].
  eexists _, _. split; [vm_compute; reflexivity|]. split; [vm_compute; reflexivity|].
  split; [reflexivity|]. split; [reflexivity|].
  split; repeat constructor.
Qed.

(** Stored values are converted: written at an 8-bit unsigned type, 300 is
    stored as 255. *)
Lemma conversion_on_write :
  ∃ d, data_array (Example.within Example.uint8 Example.int64
                     (append (Example.rows 1 1 300) (Example.rows 1 1 0))).2 = Some d ∧
       row d 0 = [255]%Z.
Proof. eexists. split; vm_compute; reflexivity. Qed.

(** ** Shapes *)

(** C1, as stated, fails: on a container whose samples have shape (3,), a
    later append of a batch whose per-sample shape is (1,) does not fail;
    h5py broadcasts the batch and the append returns. *)
Lemma shape_fixation_counterexample :
  ∃ d, data_array Example.st23 = Some d ∧ sample_shape d = [3] ∧
       tail (nd_shape (Example.rows 1 1 7)) = [1] ∧
       tail (nd_shape (Example.rows 1 1 7)) ≠ sample_shape d ∧
       (append (Example.rows 1 1 7) (Example.rows 1 1 200) Example.st23).1 = Return tt.
Proof.
  eexists. split; [vm_compute; reflexivity|].
  split; [reflexivity|]. split; [reflexivity|]. split; [discriminate|].
  vm_compute. reflexivity.
Qed.

(** C1 (amended) — Shape fixation.  The first append fixes the per-sample
    shapes [S] and [T] of the two arrays, and they stay fixed through every
    later [append] and [add_metadata].  A later append of non-empty batches
    of the same ranks, the fixed extents being non-zero, raises [TypeError]
    (h5py's broadcast error, raised by the tail write and not caught)
    exactly when some extent of a batch's per-sample shape is neither 1 nor
    the fixed extent; otherwise it returns.  In particular it returns when
    the per-sample shapes equal [S] and [T]. *)
Theorem shape_fixation {V} (st0 st1 st : St V) (data0 labels0 data labels : ndarray V)
    (c0 c0' c c' : nat) (S T S' T' : list nat) :
  Entered st0 → wf_array data0 → wf_array labels0 →
  nd_shape data0 = c0 :: S → nd_shape labels0 = c0' :: T →
  append data0 labels0 st0 = (Return tt, st1) →
  later st1 st →
  wf_array data → wf_array labels →
  nd_shape data = c :: S' → nd_shape labels = c' :: T' → 0 < c → 0 < c' →
  length S' = length S → length T' = length T →
  product S ≠ 0 → product T ≠ 0 →
  (∃ d l, data_array st = Some d ∧ label_array st = Some l ∧
          sample_shape d = S ∧ sample_shape l = T) ∧
  (append data labels st).1 =
    (if compatible S' S && compatible T' T then Return tt else Raise TypeError) ∧
  (S' = S → T' = T → (append data labels st).1 = Return tt).
Proof.
  intros He Hwd0 Hwl0 Ed0 El0 Hr0 Hlater Hwd Hwl Ed El Hc Hc' HlS HlT HS HT.
  pose proof (append_first_Ready st0 st1 data0 labels0 c0 c0' S T He Hwd0 Hwl0 Ed0 El0 Hr0) as HR1.
  destruct (later_Ready S T st1 st HR1 Hlater) as (d & l & H & [n Hd] & [m Hl]).
  pose proof (append_outcome n m c c' S T S' T' st d l data labels
                H Hd Hl Hwd Hwl Ed El Hc Hc' HlS HlT HS HT) as Hout.
  split; [|split; [exact Hout|]].
  - exists d, l.
    split; [by apply (holds_data_array _ _ _ H)|].
    split; [by apply (holds_label_array _ _ _ H)|].
    unfold sample_shape. destruct Hd as (-> & _), Hl as (-> & _). done.
  - intros -> ->. by rewrite Hout, !compatible_refl.
Qed.

Lemma new_self_constructed (dt lt : dtype Z) :
  __init__ "test.hdf5" dt lt None ∅ = (Return (Example.new_self dt lt), ∅).
Proof. reflexivity. Qed.

Lemma Entered_example : Entered Example.entered.
Proof. split; [reflexivity|]. exists "test.hdf5". split; reflexivity. Qed.

(** Scenario C: per-sample shape (10,) fixed, then a batch of per-sample
    shape (12,). *)
Lemma shape_fixation_witness :
  (∃ d l, data_array Example.st_C = Some d ∧ label_array Example.st_C = Some l ∧
          sample_shape d = [10] ∧ sample_shape l = [1]) ∧
  (append (Example.rows 1 12 0) (Example.rows 1 1 0) Example.st_C).1 = Raise TypeError ∧
  ([12] = [10] → [1] = [1] →
   (append (Example.rows 1 12 0) (Example.rows 1 1 0) Example.st_C).1 = Return tt).
Proof.
  apply (shape_fixation Example.entered Example.st_C Example.st_C
           (Example.rows 2 10 0) (Example.rows 2 1 0)
           (Example.rows 1 12 0) (Example.rows 1 1 0) 2 2 1 1 [10] [1] [12] [1]).
  - apply Entered_example.
  - reflexivity.
  - reflexivity.
  - reflexivity.
  - reflexivity.
  - vm_compute. reflexivity.
  - apply later_now.
  - reflexivity.
  - reflexivity.
  - reflexivity.
  - reflexivity.
  - lia.
  - lia.
  - reflexivity.
  - reflexivity.
  - vm_compute. lia.
  - vm_compute. lia.
Defined.

(** ** Failed appends *)

(** C5, as stated, fails: the append of a sample of shape (4,) to a
    container whose samples have shape (3,) raises, and the data array,
    which held 2 samples, is left with 3. *)
Lemma failed_append_counterexample :
  ∃ d d', data_array Example.st23 = Some d ∧
          (append (Example.rows 1 4 0) (Example.rows 1 1 0) Example.st23).1 = Raise TypeError ∧
          data_array (append (Example.rows 1 4 0) (Example.rows 1 1 0) Example.st23).2 = Some d' ∧
          count d = 2 ∧ count d' = 3 ∧ count d' ≠ count d.
Proof.
  eexists _, _. split; [vm_compute; reflexivity|]. split; [vm_compute; reflexivity|].
  split; [vm_compute; reflexivity|].
  split; [reflexivity|]. split; [reflexivity|]. discriminate.
Qed.

(** C5 (amended) — A data batch that cannot be broadcast.  When a data
    batch with at least one row, of any rank, cannot be broadcast to the
    rows to be written (h5py's [expand_shape] refuses the batch's shape
    against the batch's count followed by the fixed per-sample shape: aligned
    from the last axis, some extent of the batch is neither 1 nor the
    array's, or an axis the batch has in surplus exceeds 1), the fixed
    extents being non-zero, the append raises [TypeError] from the tail
    write, after the resize: the data array is left at its resized extent,
    the old count plus the batch's count, its old elements in place and the
    new rows holding the fill value; the label array is not touched. *)
Theorem failed_append_extent {V} (S T rest : list nat) (st : St V)
    (data labels : ndarray V) (d l : Dataset V) (c : nat) :
  Ready S T st → data_array st = Some d → label_array st = Some l →
  nd_shape data = c :: rest → 0 < c → product S ≠ 0 →
  expand_shape (c :: S) (nd_shape data) = None →
  ∃ st', append data labels st = (Raise TypeError, st') ∧
         data_array st' =
           Some (with_contents (count d + c :: S)
                   (ds_data d ++ replicate (c * product S) (dt_zero (ds_dtype d))) d) ∧
         label_array st' = Some l.
Proof.
  intros HR Ed El Eb Hc HS He.
  destruct (Ready_arrays S T st d l HR Ed El) as (H & [n Hd] & _).
  destruct (append_holds st d l data labels H) as (st' & E & H' & _).
  unfold append_arrays in E, H'.
  rewrite (extend_array_unbroadcastable n c rest S d data) in E, H' by done.
  exists st'. split; [exact E|]. simpl in H'.
  assert (count d = n) as -> by (unfold count; by destruct Hd as (-> & _)).
  split; [by apply (holds_data_array _ _ _ H')|by apply (holds_label_array _ _ _ H')].
Qed.

(** A batch of shape (2, 1, 3) on samples of shape (3,): every aligned
    extent agrees, the surplus axis of extent 2 cannot be broadcast. *)
Lemma failed_append_extent_witness :
  ∃ st', append {| nd_shape := [2; 1; 3]; nd_flat := [10; 11; 12; 20; 21; 22]%Z |}
           (Example.rows 2 1 0) Example.st23 = (Raise TypeError, st') ∧
         data_array st' =
           Some (with_contents [4; 3] ([0; 1; 2; 0; 1; 2] ++ replicate 6 0)%Z Example.data23) ∧
         label_array st' = Some Example.labels23.
Proof.
  apply (failed_append_extent [3] [1] [1; 3] Example.st23
           {| nd_shape := [2; 1; 3]; nd_flat := [10; 11; 12; 20; 21; 22]%Z |}
           (Example.rows 2 1 0) Example.data23 Example.labels23 2).
  - apply Ready_st23.
  - vm_compute. reflexivity.
  - vm_compute. reflexivity.
  - reflexivity.
  - lia.
  - vm_compute. lia.
  - reflexivity.
Defined.

(** The batches of the fixed rank among them: a per-sample extent that is
    neither 1 nor the fixed one. *)
Lemma failed_append_same_rank {V} (S T S' : list nat) (st : St V)
    (data labels : ndarray V) (d l : Dataset V) (c : nat) :
  Ready S T st → data_array st = Some d → label_array st = Some l →
  nd_shape data = c :: S' → 0 < c →
  length S' = length S → compatible S' S = false → product S ≠ 0 →
  (append data labels st).1 = Raise TypeError ∧
  data_array (append data labels st).2 =
    Some (with_contents (count d + c :: S)
            (ds_data d ++ replicate (c * product S) (dt_zero (ds_dtype d))) d) ∧
  label_array (append data labels st).2 = Some l.
Proof.
  intros HR Ed El Eb Hc HlS Hcomp HS.
  destruct (Ready_arrays S T st d l HR Ed El) as (H & [n Hd] & _).
  destruct (append_holds st d l data labels H) as (st' & -> & H' & _).
  unfold append_arrays in *.
  rewrite (extend_array_mismatch n c S S' d data) in * by done.
  split; [done|]. simpl in H'.
  assert (count d = n) as -> by (unfold count; by destruct Hd as (-> & _)).
  split; [by apply (holds_data_array _ _ _ H')|by apply (holds_label_array _ _ _ H')].
Qed.

(** C10, as stated, fails: on a container whose labels have shape (2,), an
    append whose data batch matches and whose label batch has per-sample
    shape (1,) returns: the label write does not fail, the label is
    broadcast and stored as the row [[200; 200]]. *)
Lemma failed_label_write_counterexample :
  ∃ l l', label_array Example.st22 = Some l ∧ sample_shape l = [2] ∧
          tail (nd_shape (Example.rows 1 3 10)) = [3] ∧
          tail (nd_shape (Example.rows 1 1 200)) = [1] ∧
          (append (Example.rows 1 3 10) (Example.rows 1 1 200) Example.st22).1 = Return tt ∧
          label_array (append (Example.rows 1 3 10) (Example.rows 1 1 200) Example.st22).2
            = Some l' ∧
          row l' 2 = [200; 200]%Z.
Proof.
  eexists _, _. split; [vm_compute; reflexivity|].
  split; [reflexivity|]. split; [reflexivity|]. split; [reflexivity|].
  split; [vm_compute; reflexivity|]. split; [vm_compute; reflexivity|].
  reflexivity.
Qed.

(** C10 (amended) — No rollback across the two arrays.  On an initialized
    container, when a non-empty data batch has the fixed per-sample shape
    and a non-empty label batch of the fixed rank has a per-sample extent
    that is neither 1 nor the fixed one (the fixed label extents being
    non-zero), the data array is resized and its new rows are written with
    the data batch; then the label array is resized and its tail write
    raises [TypeError].  The append leaves the data array grown by the data
    batch, and the label array grown by rows of the fill value, none of
    the label batch stored; nothing is rolled back. *)
Theorem failed_label_write {V} (S T T' : list nat) (st : St V)
    (data labels : ndarray V) (d l : Dataset V) (c c' : nat) :
  Ready S T st → data_array st = Some d → label_array st = Some l →
  wf_array data → nd_shape data = c :: S → 0 < c →
  nd_shape labels = c' :: T' → 0 < c' →
  length T' = length T → compatible T' T = false → product T ≠ 0 →
  ∃ st', append data labels st = (Raise TypeError, st') ∧
         data_array st' =
           Some (with_contents (count d + c :: S)
                   (ds_data d ++ (dt_cast (ds_dtype d) <$> nd_flat data)) d) ∧
         label_array st' =
           Some (with_contents (count l + c' :: T)
                   (ds_data l ++ replicate (c' * product T) (dt_zero (ds_dtype l))) l).
Proof.
  intros HR Ed El Hwd Eb Hc Ebl Hc' HlT Hcomp HT.
  destruct (Ready_arrays S T st d l HR Ed El) as (H & [n Hd] & [m Hl]).
  destruct (append_holds st d l data labels H) as (st' & E & H' & _).
  unfold append_arrays in E, H'.
  rewrite (extend_array_match n c S d data) in E, H' by done.
  rewrite (extend_array_mismatch m c' T T' l labels) in E, H' by done.
  exists st'. split; [exact E|]. simpl in H'.
  assert (count d = n) as -> by (unfold count; by destruct Hd as (-> & _)).
  assert (count l = m) as -> by (unfold count; by destruct Hl as (-> & _)).
  split; [by apply (holds_data_array _ _ _ H')|by apply (holds_label_array _ _ _ H')].
Qed.

Lemma Ready_st22 : Ready [3] [2] Example.st22.
Proof.
  eexists _, _. split; [split; [reflexivity|]|].
  - exists "test.hdf5". eexists. repeat split; vm_compute; reflexivity.
  - split; eexists; repeat split.
Qed.

Lemma failed_label_write_witness :
  ∃ st', append (Example.rows 1 3 10) (Example.rows 1 3 200) Example.st22
           = (Raise TypeError, st') ∧
         data_array st' =
           Some (with_contents [3; 3] ([0; 1; 2; 0; 1; 2] ++ [10; 11; 12])%Z Example.data22) ∧
         label_array st' =
           Some (with_contents [3; 2] ([100; 101; 100; 101] ++ replicate 2 0)%Z Example.labels22).
Proof.
  apply (failed_label_write [3] [2] [3] Example.st22
           (Example.rows 1 3 10) (Example.rows 1 3 200) Example.data22 Example.labels22 1 1).
  - apply Ready_st22.
  - vm_compute. reflexivity.
  - vm_compute. reflexivity.
  - reflexivity.
  - reflexivity.
  - lia.
  - reflexivity.
  - lia.
  - reflexivity.
  - reflexivity.
  - vm_compute. lia.
Defined.

(** ** Metadata *)

(** C6, as stated, fails: after [add_metadata({"version": "2.0"})] the
    data array's [version] attribute is ["2.0"], not ["1.0.0"]: the stamp
    is written first and the caller's key overwrites it. *)
Lemma metadata_version_counterexample :
  (add_metadata [("version", PyStr "2.0")] Example.st23).1 = Return tt ∧
  ∃ d, data_array (add_metadata [("version", PyStr "2.0")] Example.st23).2 = Some d ∧
       ds_attrs d !! "version" = Some "2.0" ∧
       ds_attrs d !! "version" ≠ Some VERSION.
Proof.
  split; [vm_compute; reflexivity|].
  eexists. split; [vm_compute; reflexivity|].
  split; [vm_compute; reflexivity|]. vm_compute. discriminate.
Qed.

(** C6 (amended) — Metadata.  On an initialized container, two
    [add_metadata] calls giving the same key, a non-empty name without NUL,
    with values whose strings hold no NUL, both return and leave that key's
    attribute at the second value's string (so [{"x": "a"}] then
    [{"x": "b"}] leaves [x] at ["b"]).  After a call, returning or raising,
    whose dictionary has no key ["version"] (and no NUL in its keys), the
    data array's [version] attribute is ["1.0.0"]; the call returns when
    every key is a non-empty name without NUL and no value's string holds a
    NUL. *)
Theorem metadata_overwrite {V} (S T : list nat) (st : St V)
    (k : string) (v1 v2 : pyval) (info : list (string * pyval)) :
  Ready S T st →
  k ≠ "" → has_nul k = false →
  has_nul (str v1) = false → has_nul (str v2) = false →
  Forall (λ kv, has_nul kv.1 = false) info → "version" ∉ info.*1 →
  (∃ st' d, (add_metadata [(k, v1)] ;; add_metadata [(k, v2)]) st = (Return tt, st') ∧
            data_array st' = Some d ∧ ds_attrs d !! k = Some (str v2)) ∧
  (∃ d, data_array (add_metadata info st).2 = Some d ∧
        ds_attrs d !! "version" = Some VERSION) ∧
  (storable info → (add_metadata info st).1 = Return tt).
Proof.
  intros (d & l & H & _) Hk Hn Hv1 Hv2 Hnul Hv. split; [|split].
  - destruct (add_metadata_holds st d l [(k, v1)] H) as (st1 & E1 & H1 & _).
    destruct (add_metadata_holds st1 _ l [(k, v2)] H1) as (st2 & E2 & H2 & _).
    rewrite storable_result in E1, E2 by (by repeat constructor).
    eexists st2, _. split; [|split; [by apply (holds_data_array _ _ _ H2)|]].
    + unfold mbind, Eff_bind. by rewrite E1.
    + by apply metadata_attrs_single.
  - destruct (add_metadata_holds st d l info H) as (st1 & -> & H1 & _).
    eexists. split; [by apply (holds_data_array _ _ _ H1)|].
    apply metadata_attrs_version. by rewrite nul_free_names.
  - intros Hst. destruct (add_metadata_holds st d l info H) as (st1 & -> & _).
    by apply storable_result.
Qed.

Lemma metadata_overwrite_witness :
  (∃ st' d, (add_metadata [("x", PyStr "a")] ;; add_metadata [("x", PyStr "b")]) Example.st23
              = (Return tt, st') ∧
            data_array st' = Some d ∧ ds_attrs d !! "x" = Some "b") ∧
  (∃ d, data_array (add_metadata [("augmentation", PyStr "shifted"); ("", PyNone)]
                      Example.st23).2 = Some d ∧
        ds_attrs d !! "version" = Some "1.0.0") ∧
  (storable [("augmentation", PyStr "shifted"); ("", PyNone)] →
   (add_metadata [("augmentation", PyStr "shifted"); ("", PyNone)] Example.st23).1
   = Return tt).
Proof.
  apply (metadata_overwrite [3] [1] Example.st23 "x" (PyStr "a") (PyStr "b")
           [("augmentation", PyStr "shifted"); ("", PyNone)]).
  - apply Ready_st23.
  - discriminate.
  - reflexivity.
  - reflexivity.
  - reflexivity.
  - repeat constructor.
  - vm_compute. intros H. repeat (apply elem_of_cons in H as [H|H]; [discriminate|]).
    by apply elem_of_nil in H.
Defined.

(** A dictionary with an empty key: the items before it are stored, the
    call raises [ValueError], the items after it are not stored. *)
Lemma metadata_empty_key :
  (add_metadata [("a", PyInt 1); ("", PyInt 2); ("z", PyInt 3)] Example.st23).1
  = Raise ValueError ∧
  ∃ d, data_array (add_metadata [("a", PyInt 1); ("", PyInt 2); ("z", PyInt 3)]
                     Example.st23).2 = Some d ∧
       ds_attrs d !! "version" = Some "1.0.0" ∧
       ds_attrs d !! "a" = Some "1" ∧ ds_attrs d !! "z" = None.
Proof.
  split; [vm_compute; reflexivity|].
  eexists. split; [vm_compute; reflexivity|]. repeat split; vm_compute; reflexivity.
Qed.

(** C7 — Metadata before initialization.  On every container on which
    [append] has not been called, [add_metadata] raises [AttributeError]
    (the object has no [dataset] yet), and changes nothing. *)
Theorem metadata_before_append {V} (st : St V) (info : list (string * pyval)) :
  never_appended st → add_metadata info st = (Raise AttributeError, st).
Proof.
  intros H. apply add_metadata_uninitialized. by apply never_appended_no_dataset.
Qed.

Lemma metadata_before_append_witness :
  add_metadata [("augmentation", PyStr "shifted")] Example.entered
  = (Raise AttributeError, Example.entered).
Proof.
  apply (metadata_before_append Example.entered).
  apply (na_enter {| self := Example.new_self Example.int64 Example.int64; disk := ∅ |}).
  apply (na_new "test.hdf5" Example.int64 Example.int64 None ∅). reflexivity.
Defined.

(** ** Construction *)

Section Construction.
Context {V : Type}.

Lemma prefix_refl (s : string) : String.prefix s s = true.
Proof.
  induction s as [|a s IH]; [done|]. simpl.
  destruct (Ascii.ascii_dec a a); [done|congruence].
Qed.

(** A path with the extension passes the constructor's test. *)
Lemma extension_contained ext path :
  has_extension ext path = true → str_contains ext path = true.
Proof.
  induction path as [|a path IH]; cbn [has_extension str_contains].
  - rewrite !orb_false_r. intros ->%String.eqb_eq. apply prefix_refl.
  - intros [->%String.eqb_eq | H]%orb_true_iff.
    + by rewrite prefix_refl.
    + rewrite IH by done. apply orb_true_r.
Qed.

(** A path without [".hdf5"] in it is refused, and nothing is created. *)
Lemma init_rejects filename (dt lt : dtype V) comp fs :
  str_contains ".hdf5" filename = false →
  __init__ filename dt lt comp fs = (Raise (AssertionError "Filename ust be .hdf5 file"), fs).
Proof. intros H. unfold __init__. by rewrite H. Qed.

(** Construction creates no file; [__enter__] creates the file. *)
Lemma init_creates_nothing filename (dt lt : dtype V) comp fs path :
  (__init__ filename dt lt comp fs).2 !! path = fs !! path.
Proof. by rewrite init_pure. Qed.

Lemma enter_creates_file filename (dt lt : dtype V) comp fs s fs' :
  __init__ filename dt lt comp fs = (Return s, fs') →
  disk (__enter__ {| self := s; disk := fs' |}).2 !! filename = Some ∅.
Proof.
  intros H. destruct (enter_entered _ _ _ _ _ _ _ H) as (_ & _ & ->).
  apply lookup_insert_eq.
Qed.

End Construction.

(** C8 — Construction.  The path ["data.hdf5.bak"] does not have the
    extension [".hdf5"], yet the constructor accepts it: its test is that
    [".hdf5"] occurs somewhere in the name.  No [AssertionError] is raised;
    the object is built (and, as for every path, no file is touched). *)
Theorem init_accepts_other_extension {V} (dt lt : dtype V) (comp : option string)
    (fs : gmap string (gmap string (Dataset V))) :
  has_extension ".hdf5" "data.hdf5.bak" = false ∧
  __init__ "data.hdf5.bak" dt lt comp fs =
    (Return (mk_self "data.hdf5.bak" dt lt comp false None None None), fs).
Proof. split; reflexivity. Qed.

(** ** Unequal sample counts *)

Section UnequalCounts.
Context {V : Type}.

(** With at least one sample in each batch and the fixed per-sample shapes,
    [append] returns whatever the two counts are, and each array grows by
    its own batch. *)
Lemma append_unequal_counts (S T : list nat) (st : St V) (data labels : ndarray V)
    (d l : Dataset V) (c c' : nat) :
  Ready S T st → data_array st = Some d → label_array st = Some l →
  wf_array data → wf_array labels →
  nd_shape data = c :: S → nd_shape labels = c' :: T → 0 < c → 0 < c' →
  ∃ st', append data labels st = (Return tt, st') ∧
         data_array st' =
           Some (with_contents (count d + c :: S)
                   (ds_data d ++ (dt_cast (ds_dtype d) <$> nd_flat data)) d) ∧
         label_array st' =
           Some (with_contents (count l + c' :: T)
                   (ds_data l ++ (dt_cast (ds_dtype l) <$> nd_flat labels)) l).
Proof.
  intros HR Ed El Hwd Hwl Eb Ebl Hc Hc'.
  destruct (Ready_arrays S T st d l HR Ed El) as (H & [n Hd] & [m Hl]).
  destruct (append_holds st d l data labels H) as (st' & E & H' & _).
  unfold append_arrays in E, H'.
  rewrite (extend_array_match n c S d data) in E, H' by done.
  rewrite (extend_array_match m c' T l labels) in E, H' by done.
  exists st'. split; [exact E|]. simpl in H'.
  assert (count d = n) as -> by (unfold count; by destruct Hd as (-> & _)).
  assert (count l = m) as -> by (unfold count; by destruct Hl as (-> & _)).
  split; [by apply (holds_data_array _ _ _ H')|by apply (holds_label_array _ _ _ H')].
Qed.

End UnequalCounts.

(** C9 — Unequal sample counts.  On a container whose samples have shape
    (3,) and labels shape (1,), the append of an empty data batch of shape
    (0, 3) with a label batch of shape (1, 1) has matching per-sample
    shapes and counts 0 and 1, yet raises [TypeError]: [dset[-0:, ...]]
    selects every row, and the empty batch cannot be broadcast to them. *)
Theorem empty_batch_append_raises :
  ∃ d l, data_array Example.st23 = Some d ∧ label_array Example.st23 = Some l ∧
         tail (nd_shape (Example.rows 0 3 0)) = sample_shape d ∧
         tail (nd_shape (Example.rows 1 1 5)) = sample_shape l ∧
         batch_count (Example.rows 0 3 0) = 0 ∧
         batch_count (Example.rows 1 1 5) = 1 ∧
         wf_array (Example.rows 0 3 0) ∧
         (append (Example.rows 0 3 0) (Example.rows 1 1 5) Example.st23).1 = Raise TypeError.
Proof.
  eexists _, _. split; [vm_compute; reflexivity|]. split; [vm_compute; reflexivity|].
  split; [reflexivity|]. split; [reflexivity|]. split; [reflexivity|].
  split; [reflexivity|]. split; [reflexivity|]. vm_compute. reflexivity.
Qed.

(** * Further properties *)

(** ** Construction and the first append *)

(** X1 — Every file name that ends in [".hdf5"] is accepted by the
    constructor, which builds an uninitialized object and leaves the disk
    as it was. *)
Theorem hdf5_paths_accepted {V} (filename : string) (dt lt : dtype V)
    (comp : option string) (fs : gmap string (gmap string (Dataset V))) :
  has_extension ".hdf5" filename = true →
  __init__ filename dt lt comp fs =
    (Return (mk_self filename dt lt comp false None None None), fs).
Proof.
  intros H. unfold __init__. by rewrite (extension_contained _ _ H).
Qed.

Lemma hdf5_paths_accepted_witness :
  __init__ "out/preprocessed.hdf5" Example.int64 Example.int64 (Some "gzip") ∅ =
    (Return (mk_self "out/preprocessed.hdf5" Example.int64 Example.int64 (Some "gzip")
               false None None None), ∅).
Proof. apply (hdf5_paths_accepted "out/preprocessed.hdf5"). reflexivity. Defined.

Section FirstAppend.
Context {V : Type}.
Implicit Types (st : St V) (data labels : ndarray V).

Lemma append_first_disk st p data labels :
  initialized (self st) = false → file (self st) = Some p → disk st !! p = Some ∅ →
  nd_shape data ≠ [] → nd_shape labels ≠ [] →
  compression_available (compression (self st)) = true →
  append data labels st =
  (Return tt,
   {| self := set_initialized true
                (set_labelset (p, "labels") (set_dataset (p, "data") (self st)));
      disk := <[p := <["labels" := init_array (label_type (self st)) (compression (self st)) labels]>
                       (<["data" := init_array (data_type (self st)) (compression (self st)) data]> ∅)]>
                (disk st) |}).
Proof.
  intros Hi Hf Hp Hd Hl Hc. destruct st as [s fs]. simpl in *.
  unfold append, _init. eff. simpl. rewrite Hi. simpl. rewrite Hf. cbn [disk self].
  rewrite (create_dataset_ok fs p ∅ "data") by done. simpl. rewrite Hf. cbn [disk self].
  rewrite (create_dataset_ok _ p
             (<["data" := init_array (data_type s) (compression s) data]> ∅) "labels");
    [|apply lookup_insert_eq|by rewrite lookup_insert_ne|done..].
  simpl. by rewrite insert_insert_eq.
Qed.

End FirstAppend.

(** X2 — A fresh start.  When the container has been constructed and
    entering it returns (the file could be opened for writing), whatever
    files the disk held before, also one of the same name with datasets in
    it, appending a first pair of batches (arrays with at least one axis;
    compression none, gzip or lzf) returns; the file then holds exactly the
    two datasets ["data"] and ["labels"], made from the batches, and every
    other file is as before. *)
Theorem first_append_starts_afresh {V} (fs fs' : gmap string (gmap string (Dataset V)))
    (filename : string) (dt lt : dtype V) (comp : option string)
    (s : HDF5DatasetExtendable V) (st0 : St V) (data labels : ndarray V) :
  __init__ filename dt lt comp fs = (Return s, fs') →
  __enter__ {| self := s; disk := fs' |} = (Return tt, st0) →
  nd_shape data ≠ [] → nd_shape labels ≠ [] →
  compression_available comp = true →
  ∃ st', append data labels st0 = (Return tt, st') ∧
         initialized (self st') = true ∧
         data_array st' = Some (init_array dt comp data) ∧
         label_array st' = Some (init_array lt comp labels) ∧
         disk st' !! filename =
           Some (<["labels" := init_array lt comp labels]>
                   (<["data" := init_array dt comp data]> ∅)) ∧
         ∀ p, p ≠ filename → disk st' !! p = fs !! p.
Proof.
  intros Hinit E Hd Hl Hc.
  destruct (enter_entered _ _ _ _ _ _ _ Hinit) as (Hr & (Hi & p & Hf & Hp) & Hdisk).
  apply init_accepts in Hinit as (_ & -> & ->).
  rewrite E in Hr, Hi, Hf, Hp, Hdisk. simpl in Hi, Hf, Hp, Hdisk.
  assert (p = filename) as ->.
  { revert E. unfold __enter__, File_w. eff. simpl. intros [= <-]. simpl in Hf. congruence. }
  assert (self st0 = set_file filename (mk_self filename dt lt comp false None None None)) as Hs.
  { revert E. unfold __enter__, File_w. eff. simpl. by intros [= <-]. }
  rewrite (append_first_disk st0 filename data labels) by (done || by rewrite Hs).
  eexists. split; [reflexivity|]. rewrite Hs, Hdisk. simpl.
  split; [done|].
  split; [|split; [|split]].
  - unfold data_array, lookup_dataset. simpl. rewrite lookup_insert_eq. simpl.
    rewrite lookup_insert_ne by done. apply lookup_insert_eq.
  - unfold label_array, lookup_dataset. simpl. rewrite lookup_insert_eq. simpl.
    apply lookup_insert_eq.
  - apply lookup_insert_eq.
  - intros p Hp'. by rewrite !lookup_insert_ne.
Qed.

Lemma first_append_starts_afresh_witness :
  ∃ st', append (Example.rows 1 3 7) (Example.rows 1 1 9)
           (__enter__ {| self := mk_self "test.hdf5" Example.int64 Example.int64
                                   (Some "gzip") false None None None;
                         disk := disk Example.st23 |}).2 = (Return tt, st') ∧
         initialized (self st') = true ∧
         data_array st' = Some (init_array Example.int64 (Some "gzip") (Example.rows 1 3 7)) ∧
         label_array st' = Some (init_array Example.int64 (Some "gzip") (Example.rows 1 1 9)) ∧
         disk st' !! "test.hdf5" =
           Some (<["labels" := init_array Example.int64 (Some "gzip") (Example.rows 1 1 9)]>
                   (<["data" := init_array Example.int64 (Some "gzip") (Example.rows 1 3 7)]> ∅)) ∧
         ∀ p, p ≠ "test.hdf5" → disk st' !! p = disk Example.st23 !! p.
Proof.
  apply (first_append_starts_afresh (disk Example.st23) (disk Example.st23) "test.hdf5"
           Example.int64 Example.int64 (Some "gzip")
           (mk_self "test.hdf5" Example.int64 Example.int64 (Some "gzip") false None None None)).
  - reflexivity.
  - reflexivity.
  - discriminate.
  - discriminate.
  - reflexivity.
Defined.

(** ** Use outside a [with] block *)

(** X3 — A container that was constructed but never entered does nothing:
    every [append] and every [add_metadata] on it raises [AttributeError]
    and leaves the object and the disk unchanged, however many calls were
    made before. *)
Theorem outside_with_nothing_happens {V} (st : St V) (data labels : ndarray V)
    (info : list (string * pyval)) :
  outside_with st →
  append data labels st = (Raise AttributeError, st) ∧
  add_metadata info st = (Raise AttributeError, st).
Proof.
  intros H.
  assert (initialized (self st) = false ∧ file (self st) = None ∧ dataset (self st) = None)
    as (Hi & Hf & Hd).
  { induction H as [filename dt lt comp fs s fs' H|st d l _ IH|st i _ IH].
    - by apply init_accepts in H as (_ & _ & ->).
    - destruct IH as (Hi & Hf & Hd).
      assert (append d l st = (Raise AttributeError, st)) as ->; [|done].
      destruct st as [s fs]. simpl in *. unfold append, _init. eff. simpl.
      rewrite Hi. simpl. by rewrite Hf.
    - destruct IH as (Hi & Hf & Hd). by rewrite add_metadata_uninitialized. }
  split; [|by apply add_metadata_uninitialized].
  destruct st as [s fs]. simpl in *. unfold append, _init. eff. simpl.
  rewrite Hi. simpl. by rewrite Hf.
Qed.

Lemma outside_with_nothing_happens_witness :
  append (Example.rows 2 3 0) (Example.rows 2 1 100)
    {| self := Example.new_self Example.int64 Example.int64; disk := ∅ |}
  = (Raise AttributeError,
     {| self := Example.new_self Example.int64 Example.int64; disk := ∅ |}) ∧
  add_metadata [("augmentation", PyStr "shifted")]
    {| self := Example.new_self Example.int64 Example.int64; disk := ∅ |}
  = (Raise AttributeError,
     {| self := Example.new_self Example.int64 Example.int64; disk := ∅ |}).
Proof.
  apply (outside_with_nothing_happens
           {| self := Example.new_self Example.int64 Example.int64; disk := ∅ |}).
  apply (ow_new "test.hdf5" Example.int64 Example.int64 None ∅). reflexivity.
Defined.

(** ** A first append that fails half-way *)

Section HalfInitialized.
Context {V : Type}.
Implicit Types (st : St V) (data labels : ndarray V).

Lemma create_dataset_exists fs f grp name ds shape (dt : dtype V) maxshape batch chunks comp :
  fs !! f = Some grp → grp !! name = Some ds →
  ∃ e, create_dataset f name shape dt maxshape batch chunks comp fs = (Raise e, fs).
Proof.
  intros Hf Hn. unfold create_dataset. rewrite Hf, Hn.
  rewrite bool_decide_eq_true_2 by (by eexists).
  destruct (negb _); [by eexists|].
  destruct (scalar_with_options _ _ _ _); [by eexists|].
  repeat (destruct (negb _); [by eexists|]). by eexists.
Qed.

End HalfInitialized.

(** X4 — A first append (compression none, gzip or lzf) whose data batch
    has at least one axis but whose label batch has none (a zero-dimensional
    array) raises [TypeError], h5py refusing a chunked scalar dataset, after
    the ["data"] dataset has been created: the container stays
    uninitialized, with its data array made from the batch and no label
    array.  From then on every [append] raises and changes nothing (the
    name ["data"] is taken), so the container can no longer be
    initialized. *)
Theorem failed_first_append_sticks {V} (fs fs' : gmap string (gmap string (Dataset V)))
    (filename : string) (dt lt : dtype V) (comp : option string)
    (s : HDF5DatasetExtendable V) (data labels : ndarray V) :
  __init__ filename dt lt comp fs = (Return s, fs') →
  nd_shape data ≠ [] → nd_shape labels = [] →
  compression_available comp = true →
  ∃ st1, append data labels (__enter__ {| self := s; disk := fs' |}).2
           = (Raise TypeError, st1) ∧
         initialized (self st1) = false ∧
         data_array st1 = Some (init_array dt comp data) ∧
         label_array st1 = None ∧
         ∀ data' labels', ∃ e', append data' labels' st1 = (Raise e', st1).
Proof.
  intros Hinit Hd Hl Hc. apply init_accepts in Hinit as (_ & -> & ->).
  unfold __enter__, File_w. eff. simpl.
  set (fs0 := <[filename := ∅]> fs).
  unfold append at 1, _init. eff. simpl.
  rewrite (create_dataset_ok fs0 filename ∅ "data") by (done || apply lookup_insert_eq).
  simpl. set (fs1 := <[filename := _]> fs0).
  assert (create_dataset filename "labels" (nd_shape labels) lt
            (None :: (Some <$> tail (nd_shape labels))) labels true comp fs1
          = (Raise TypeError, fs1)) as He.
  { unfold create_dataset, fs1. rewrite lookup_insert_eq, Hl. reflexivity. }
  rewrite He. eexists. split; [reflexivity|]. simpl.
  split; [done|]. split; [|split; [done|]].
  - unfold data_array, lookup_dataset. simpl. unfold fs1. rewrite lookup_insert_eq. simpl.
    apply lookup_insert_eq.
  - intros data' labels'. unfold append, _init. eff. simpl.
    destruct (create_dataset_exists fs1 filename
                (<["data" := init_array dt comp data]> ∅) "data" (init_array dt comp data)
                (nd_shape data') dt
                (None :: (Some <$> tail (nd_shape data'))) data' true comp)
      as [e' He']; [apply lookup_insert_eq|apply lookup_insert_eq|].
    rewrite He'. by eexists.
Qed.

Lemma failed_first_append_sticks_witness :
  ∃ st1,
    append (Example.rows 2 3 0) {| nd_shape := []; nd_flat := [5%Z] |}
      (__enter__ {| self := Example.new_self Example.int64 Example.int64; disk := ∅ |}).2
      = (Raise TypeError, st1) ∧
    initialized (self st1) = false ∧
    data_array st1 = Some (init_array Example.int64 None (Example.rows 2 3 0)) ∧
    label_array st1 = None ∧
    ∀ data' labels', ∃ e', append data' labels' st1 = (Raise e', st1).
Proof.
  apply (failed_first_append_sticks ∅ ∅ "test.hdf5" Example.int64 Example.int64 None).
  - reflexivity.
  - discriminate.
  - reflexivity.
  - reflexivity.
Defined.

(** ** Batches without samples, batches without axes *)

Section EdgeBatches.
Context {V : Type}.
Implicit Types (d l : Dataset V) (batch data labels : ndarray V) (st : St V) (S T : list nat).

(** A state is determined by its object and its two arrays. *)
Lemma holds_unchanged st st' d l :
  holds st d l → self st' = self st →
  (∃ d1 l1, disk st' = store_dataset (default ("", "") (labelset (self st))) l1
                         (store_dataset (default ("", "") (dataset (self st))) d1 (disk st)) ∧
            d1 = d ∧ l1 = l) →
  st' = st.
Proof.
  intros (Hi & p & grp & Hd & Hl & Hp & Hgd & Hgl) Hs (d1 & l1 & Hdisk & -> & ->).
  destruct st as [s fs], st' as [s' fs']. simpl in *. subst s'. f_equal.
  rewrite Hdisk, Hd, Hl. simpl.
  rewrite (store_id fs (p, "data") d) by (unfold lookup_dataset; simpl; by rewrite Hp).
  apply store_id. unfold lookup_dataset. simpl. by rewrite Hp.
Qed.

(** [append] in terms of the two arrays, with the state it leaves. *)
Lemma append_state st d l data labels :
  holds st d l →
  append data labels st =
  ((append_arrays data labels d l).1.1,
   {| self := self st;
      disk := store_dataset (default ("", "") (labelset (self st)))
                (append_arrays data labels d l).2
                (store_dataset (default ("", "") (dataset (self st)))
                   (append_arrays data labels d l).1.2 (disk st)) |}).
Proof.
  intros H. pose proof H as (Hi & p & grp & Hd & Hl & Hp & Hgd & Hgl).
  pose proof (holds_data_array _ _ _ H) as Hda. unfold data_array in Hda.
  rewrite Hd in Hda. simpl in Hda.
  rewrite append_initialized by done. unfold append_arrays.
  unfold mbind, Eff_bind. rewrite (extend_eq _ _ _ _ _ Hd Hda).
  pose proof (holds_store_data _ _ _ (extend_array data d).2 _ H Hd) as H1.
  rewrite Hd, Hl. cbn [default].
  destruct (extend_array data d) as [[[]|e] d']; simpl in *.
  2:{ f_equal. f_equal. symmetry. apply store_id.
      rewrite lookup_store_ne by done. unfold lookup_dataset. simpl. by rewrite Hp. }
  pose proof (holds_label_array _ _ _ H1) as Hla. unfold label_array in Hla.
  simpl in Hla. rewrite Hl in Hla. simpl in Hla.
  rewrite (extend_eq labelset labels _ (p, "labels") l) by done.
  by destruct (extend_array labels l) as [r l'].
Qed.

(** A batch without axes. *)
Lemma append_arrays_scalar n S d l data labels :
  shaped n S d → nd_shape data = [] →
  append_arrays data labels d l = (Raise IndexError, d, l).
Proof.
  intros Hd Hb. unfold append_arrays. by rewrite (extend_array_scalar n S d data).
Qed.

(** An empty batch on an array that holds elements. *)
Lemma extend_array_empty n S S' d batch :
  shaped n S d → nd_shape batch = 0 :: S' → length S' = length S →
  0 < n → product S ≠ 0 →
  extend_array batch d = (Raise TypeError, d).
Proof.
  intros Hd Hb Hlen Hn HS. pose proof Hd as (Hs & Hm & Hc & Hl).
  unfold extend_array. rewrite Hs, Hb, (resize_shaped n 0 S d Hd).
  rewrite Nat.add_0_r, Nat.mul_0_l. cbn [replicate]. rewrite app_nil_r.
  rewrite <- Hs, with_contents_id.
  unfold setitem_tail. rewrite Hs, Hb. cbn [slice_start Nat.eqb]. rewrite Nat.sub_0_r.
  destruct (Nat.eqb_spec (product (n :: S)) 0) as [H0|H0]; [simpl in H0; nia|].
  rewrite expand_shape_same_rank by (simpl; lia).
  rewrite compatible_cons. cbn [Nat.eqb orb].
  destruct (Nat.eqb_spec n 0); [lia|done].
Qed.

(** An empty batch on an empty array, or on rows without elements. *)
Lemma extend_array_nothing n S rest d batch :
  shaped n S d → nd_shape batch = 0 :: rest → n * product S = 0 →
  extend_array batch d = (Return tt, d).
Proof.
  intros Hd Hb H0. pose proof Hd as (Hs & Hm & Hc & Hl).
  unfold extend_array. rewrite Hs, Hb, (resize_shaped n 0 S d Hd).
  rewrite Nat.add_0_r, Nat.mul_0_l. cbn [replicate]. rewrite app_nil_r.
  rewrite <- Hs, with_contents_id.
  unfold setitem_tail. rewrite Hs. cbn [slice_start Nat.eqb]. rewrite Nat.sub_0_r.
  cbn [product foldr]. fold (product S). by rewrite H0.
Qed.

End EdgeBatches.

(** X5 — On an initialized container, an [append] whose data batch has no
    axis (a zero-dimensional array) raises [IndexError] and leaves the
    object and the disk exactly as they were. *)
Theorem scalar_batch_rejected {V} (S T : list nat) (st : St V) (data labels : ndarray V) :
  Ready S T st → nd_shape data = [] →
  append data labels st = (Raise IndexError, st).
Proof.
  intros (d & l & H & [n Hd] & _) Hb.
  rewrite (append_state st d l data labels H).
  rewrite (append_arrays_scalar n S d l data labels Hd Hb). cbn [fst snd].
  f_equal. apply (holds_unchanged st _ d l H); [done|]. by exists d, l.
Qed.

Lemma scalar_batch_rejected_witness :
  append {| nd_shape := []; nd_flat := [7%Z] |} (Example.rows 1 1 0) Example.st23
  = (Raise IndexError, Example.st23).
Proof.
  apply (scalar_batch_rejected [3] [1]); [apply Ready_st23|reflexivity].
Defined.

(** An empty data batch of the fixed rank on a container that holds
    samples. *)
Lemma append_empty_data {V} (S T S' : list nat) (st : St V)
    (data labels : ndarray V) (d : Dataset V) :
  Ready S T st → data_array st = Some d → 0 < count d → product S ≠ 0 →
  nd_shape data = 0 :: S' → length S' = length S →
  append data labels st = (Raise TypeError, st).
Proof.
  intros (d0 & l & H & [n Hd] & _) Ed Hn HS Hb Hlen.
  rewrite (holds_data_array _ _ _ H) in Ed. injection Ed as <-.
  assert (count d0 = n) as Hc by (unfold count; by destruct Hd as (-> & _)).
  rewrite (append_state st d0 l data labels H). unfold append_arrays.
  rewrite (extend_array_empty n S S' d0 data) by (done || lia). cbn [fst snd].
  f_equal. apply (holds_unchanged st _ d0 l H); [done|]. by exists d0, l.
Qed.

(** X6 — On an initialized container that holds at least one sample, with
    no zero extent in the fixed per-sample shape, an [append] whose data
    batch is empty (shape [(0, ...)] of the fixed rank) raises [TypeError],
    whatever the label batch, and leaves the object and the disk exactly as
    they were: [dset[-0:, ...]] selects every row. *)
Theorem empty_batch_rejected {V} (S T S' : list nat) (st : St V)
    (data labels : ndarray V) (d : Dataset V) :
  Ready S T st → data_array st = Some d → 0 < count d → product S ≠ 0 →
  nd_shape data = 0 :: S' → length S' = length S →
  append data labels st = (Raise TypeError, st).
Proof. apply append_empty_data. Qed.

Lemma empty_batch_rejected_witness :
  append (Example.rows 0 3 0) (Example.rows 0 1 0) Example.st23
  = (Raise TypeError, Example.st23).
Proof.
  apply (empty_batch_rejected [3] [1] [3] Example.st23 _ _ Example.data23).
  - apply Ready_st23.
  - vm_compute. reflexivity.
  - vm_compute. lia.
  - vm_compute. lia.
  - reflexivity.
  - reflexivity.
Defined.

(** X7 — On an initialized container whose two arrays hold no sample yet
    (it was initialized with empty batches), an [append] of empty batches
    returns and changes nothing, whatever the batches' other extents:
    nothing is selected, so nothing is checked. *)
Theorem empty_batch_on_empty_container {V} (S T rest rest' : list nat) (st : St V)
    (data labels : ndarray V) (d l : Dataset V) :
  Ready S T st → data_array st = Some d → label_array st = Some l →
  count d = 0 → count l = 0 →
  nd_shape data = 0 :: rest → nd_shape labels = 0 :: rest' →
  append data labels st = (Return tt, st).
Proof.
  intros HR Ed El Hcd Hcl Hb Hbl.
  destruct (Ready_arrays S T st d l HR Ed El) as (H & [n Hd] & [m Hl]).
  assert (n = 0) as -> by (unfold count in Hcd; destruct Hd as (Hs & _); by rewrite Hs in Hcd).
  assert (m = 0) as -> by (unfold count in Hcl; destruct Hl as (Hs & _); by rewrite Hs in Hcl).
  rewrite (append_state st d l data labels H). unfold append_arrays.
  rewrite (extend_array_nothing 0 S rest d data) by done.
  rewrite (extend_array_nothing 0 T rest' l labels) by done. cbn [fst snd].
  f_equal. apply (holds_unchanged st _ d l H); [done|]. by exists d, l.
Qed.

Lemma empty_batch_on_empty_container_witness :
  append (Example.rows 0 7 0) (Example.rows 0 1 0)
    (Example.within Example.int64 Example.int64
       (append (Example.rows 0 3 0) (Example.rows 0 1 0))).2
  = (Return tt,
     (Example.within Example.int64 Example.int64
        (append (Example.rows 0 3 0) (Example.rows 0 1 0))).2).
Proof.
  apply (empty_batch_on_empty_container [3] [1] [7] [1] _ _ _
           (init_array Example.int64 None (Example.rows 0 3 0))
           (init_array Example.int64 None (Example.rows 0 1 0))).
  - eexists _, _. split; [split; [reflexivity|]|].
    + exists "test.hdf5". eexists. repeat split; vm_compute; reflexivity.
    + split; eexists; repeat split.
  - vm_compute. reflexivity.
  - vm_compute. reflexivity.
  - reflexivity.
  - reflexivity.
  - reflexivity.
  - reflexivity.
Defined.


(** ** What never changes, what only grows *)

Section Invariants.
Context {V : Type}.
Implicit Types (d l : Dataset V) (batch data labels : ndarray V) (st : St V) (S T : list nat).

(** [extend] changes the extent and the elements only. *)
Lemma extend_array_fields n S d batch :
  shaped n S d →
  ds_dtype (extend_array batch d).2 = ds_dtype d ∧
  ds_compression (extend_array batch d).2 = ds_compression d ∧
  ds_attrs (extend_array batch d).2 = ds_attrs d ∧
  ds_maxshape (extend_array batch d).2 = ds_maxshape d ∧
  ds_chunks (extend_array batch d).2 = ds_chunks d.
Proof.
  intros Hd. pose proof Hd as (Hs & _).
  unfold extend_array. rewrite Hs.
  destruct (nd_shape batch) as [|c rest]; [done|].
  rewrite (resize_shaped n c S d Hd).
  destruct (setitem_tail c batch _) as [d2|e] eqn:E; [|done].
  unfold setitem_tail in E. cbn [ds_shape with_contents] in E.
  repeat case_match; simplify_eq; done.
Qed.

Lemma append_arrays_fields n m S T d l data labels :
  shaped n S d → shaped m T l →
  (ds_dtype (append_arrays data labels d l).1.2 = ds_dtype d ∧
   ds_compression (append_arrays data labels d l).1.2 = ds_compression d ∧
   ds_attrs (append_arrays data labels d l).1.2 = ds_attrs d) ∧
  (ds_dtype (append_arrays data labels d l).2 = ds_dtype l ∧
   ds_compression (append_arrays data labels d l).2 = ds_compression l ∧
   ds_attrs (append_arrays data labels d l).2 = ds_attrs l).
Proof.
  intros Hd Hl. unfold append_arrays.
  destruct (extend_array_fields n S d data Hd) as (? & ? & ? & _).
  destruct (extend_array_fields m T l labels Hl) as (? & ? & ? & _).
  destruct (extend_array data d) as [[[]|e] d']; simpl in *; [|done].
  destruct (extend_array labels l) as [r l']; simpl in *. done.
Qed.

Lemma append_arrays_prefix n m S T d l data labels :
  shaped n S d → shaped m T l → wf_array data → wf_array labels →
  (ds_data d `prefix_of` ds_data (append_arrays data labels d l).1.2 ∧
   count d ≤ count (append_arrays data labels d l).1.2) ∧
  (ds_data l `prefix_of` ds_data (append_arrays data labels d l).2 ∧
   count l ≤ count (append_arrays data labels d l).2).
Proof.
  intros Hd Hl Hwd Hwl. unfold append_arrays.
  destruct (extend_array_shaped n S d data Hd Hwd) as ((Hs1 & _) & Hp1 & _).
  destruct (extend_array_shaped m T l labels Hl Hwl) as ((Hs2 & _) & Hp2 & _).
  assert (count d = n) as Hcd by (unfold count; by destruct Hd as (-> & _)).
  assert (count l = m) as Hcl by (unfold count; by destruct Hl as (-> & _)).
  destruct (extend_array data d) as [r1 d']; simpl in *.
  assert (count d ≤ count d') by (unfold count at 2; rewrite Hs1; simpl; lia).
  destruct r1 as [[]|e]; simpl; [|done].
  destruct (extend_array labels l) as [r l']; simpl in *.
  split; [done|]. split; [done|]. unfold count at 2. rewrite Hs2. simpl. lia.
Qed.

End Invariants.

(** X8 — The storage parameters are those of the constructor and never
    change: in every state after a first append that returned, through any
    later [append] and [add_metadata] calls, returning or raising, the
    data array has the constructor's [data_type] and the label array its
    [label_type], both have its [compression], and the label array has no
    attribute. *)
Theorem storage_parameters_fixed {V} (st0 st1 st : St V) (data0 labels0 : ndarray V) :
  Entered st0 → wf_array data0 → wf_array labels0 →
  append data0 labels0 st0 = (Return tt, st1) →
  later st1 st →
  ∃ d l, data_array st = Some d ∧ label_array st = Some l ∧
         ds_dtype d = data_type (self st0) ∧ ds_dtype l = label_type (self st0) ∧
         ds_compression d = compression (self st0) ∧
         ds_compression l = compression (self st0) ∧
         ds_attrs l = ∅.
Proof.
  intros He Hwd0 Hwl0 Hr0 Hlater.
  destruct (append_first_inv st0 st1 data0 labels0 He Hr0) as (Hd0 & Hl0 & H0).
  destruct (nd_shape data0) as [|c S] eqn:Ed; [done|].
  destruct (nd_shape labels0) as [|c' T] eqn:El; [done|].
  assert (∃ d l, holds st d l ∧ wf_dataset S d ∧ wf_dataset T l ∧
                 ds_dtype d = data_type (self st0) ∧ ds_dtype l = label_type (self st0) ∧
                 ds_compression d = compression (self st0) ∧
                 ds_compression l = compression (self st0) ∧ ds_attrs l = ∅)
    as (d & l & H & _ & _ & ?).
  { induction Hlater as [|st' data labels _ IH Hwd Hwl|st' info _ IH].
    - eexists _, _. split; [exact H0|].
      split; [eexists; by apply init_array_shaped|].
      split; [eexists; by apply init_array_shaped|]. done.
    - destruct IH as (d & l & H & [n Hd] & [m Hl] & E1 & E2 & E3 & E4 & E5).
      destruct (append_holds st' d l data labels H) as (st2 & -> & H2 & _).
      destruct (append_arrays_wf S T d l data labels) as [? ?]; [by eexists..|done|done|].
      destruct (append_arrays_fields n m S T d l data labels Hd Hl)
        as ((F1 & F2 & _) & (F3 & F4 & F5)).
      eexists _, _. split; [exact H2|]. split; [done|]. split; [done|].
      rewrite F1, F2, F3, F4, F5. done.
    - destruct IH as (d & l & H & [n Hd] & Hl & E1 & E2 & E3 & E4 & E5).
      destruct (add_metadata_holds st' d l info H) as (st2 & -> & H2 & _).
      eexists _, _. split; [exact H2|].
      split; [exists n; by apply shaped_with_attrs|]. done. }
  exists d, l.
  split; [by apply (holds_data_array _ _ _ H)|].
  split; [by apply (holds_label_array _ _ _ H)|]. done.
Qed.

Lemma storage_parameters_fixed_witness :
  ∃ d l,
    data_array (add_metadata [("info", PyStr "x")]
                  (append (Example.rows 1 4 0) (Example.rows 1 1 0) Example.st23).2).2 = Some d ∧
    label_array (add_metadata [("info", PyStr "x")]
                   (append (Example.rows 1 4 0) (Example.rows 1 1 0) Example.st23).2).2 = Some l ∧
    ds_dtype d = Example.int64 ∧ ds_dtype l = Example.int64 ∧
    ds_compression d = None ∧ ds_compression l = None ∧ ds_attrs l = ∅.
Proof.
  apply (storage_parameters_fixed Example.entered Example.st23 _
           (Example.rows 2 3 0) (Example.rows 2 1 100)).
  - apply Entered_example.
  - reflexivity.
  - reflexivity.
  - vm_compute. reflexivity.
  - apply later_metadata. apply later_append; [apply later_now|reflexivity..].
Defined.

Lemma later_ranked_later {V} (S T : list nat) (st st' : St V) :
  later_ranked S T st st' → later st st'.
Proof.
  induction 1 as [|st' data labels _ IH Hwd Hwl _ _|st' info _ IH].
  - apply later_now.
  - by apply later_append.
  - by apply later_metadata.
Qed.

(** X9 — Nothing written is ever lost.  Through any later [add_metadata]
    calls and [append] calls whose batches have no more axes than the
    arrays, returning or raising, the elements each array of an initialized
    container held remain, in place, at the front of the array, and no
    sample count decreases. *)
Theorem contents_only_grow {V} (S T : list nat) (st st' : St V) (d l : Dataset V) :
  Ready S T st → data_array st = Some d → label_array st = Some l →
  later_ranked S T st st' →
  ∃ d' l', data_array st' = Some d' ∧ label_array st' = Some l' ∧
           ds_data d `prefix_of` ds_data d' ∧ count d ≤ count d' ∧
           ds_data l `prefix_of` ds_data l' ∧ count l ≤ count l'.
Proof.
  intros HR Ed El Hlater%later_ranked_later.
  destruct (Ready_arrays S T st d l HR Ed El) as (H & Hd & Hl).
  assert (∃ d' l', holds st' d' l' ∧ wf_dataset S d' ∧ wf_dataset T l' ∧
                   ds_data d `prefix_of` ds_data d' ∧ count d ≤ count d' ∧
                   ds_data l `prefix_of` ds_data l' ∧ count l ≤ count l')
    as (d' & l' & H' & _ & _ & ?).
  { induction Hlater as [|st' data labels _ IH Hwd Hwl|st' info _ IH].
    - exists d, l. done.
    - destruct IH as (d1 & l1 & H1 & [n Hd1] & [m Hl1] & P1 & C1 & P2 & C2).
      destruct (append_holds st' d1 l1 data labels H1) as (st2 & -> & H2 & _).
      destruct (append_arrays_wf S T d1 l1 data labels) as [? ?]; [by eexists..|done|done|].
      destruct (append_arrays_prefix n m S T d1 l1 data labels Hd1 Hl1 Hwd Hwl)
        as ((Q1 & D1) & (Q2 & D2)).
      eexists _, _. split; [exact H2|]. split; [done|]. split; [done|].
      split; [by etrans|]. split; [lia|]. split; [by etrans|lia].
    - destruct IH as (d1 & l1 & H1 & [n Hd1] & Hl1 & P1 & C1 & P2 & C2).
      destruct (add_metadata_holds st' d1 l1 info H1) as (st2 & -> & H2 & _).
      eexists _, _. split; [exact H2|].
      split; [exists n; by apply shaped_with_attrs|]. done. }
  exists d', l'.
  split; [by apply (holds_data_array _ _ _ H')|].
  split; [by apply (holds_label_array _ _ _ H')|]. done.
Qed.

Lemma contents_only_grow_witness :
  ∃ d' l',
    data_array (append (Example.rows 1 4 0) (Example.rows 1 1 0)
                  (append (Example.rows 1 3 10) (Example.rows 1 1 200) Example.st23).2).2
      = Some d' ∧
    label_array (append (Example.rows 1 4 0) (Example.rows 1 1 0)
                   (append (Example.rows 1 3 10) (Example.rows 1 1 200) Example.st23).2).2
      = Some l' ∧
    ds_data Example.data23 `prefix_of` ds_data d' ∧ count Example.data23 ≤ count d' ∧
    ds_data Example.labels23 `prefix_of` ds_data l' ∧ count Example.labels23 ≤ count l'.
Proof.
  apply (contents_only_grow [3] [1] Example.st23).
  - apply Ready_st23.
  - vm_compute. reflexivity.
  - vm_compute. reflexivity.
  - apply lr_append; [|reflexivity|reflexivity|simpl; lia|simpl; lia].
    apply lr_append; [apply lr_now|reflexivity|reflexivity|simpl; lia|simpl; lia].
Defined.

(** ** Metadata, further *)

Section MetadataOutcome.

Lemma metadata_result_cases (info : list (string * pyval)) :
  metadata_result info = Return tt ∨ metadata_result info = Raise ValueError.
Proof. unfold metadata_result. destruct (forallb _ info); [by left|by right]. Qed.

End MetadataOutcome.

(** X10 — [add_metadata] on an initialized container, with a dictionary
    whose keys hold no NUL character, returns or raises [ValueError] (it
    returns when every key is a non-empty name and no value's string holds a
    NUL), and either way touches nothing but attributes of the data array:
    the object, the extent and the elements of both arrays and the whole
    label array are unchanged, and so is every attribute whose key is
    neither ["version"] nor a key of the dictionary. *)
Theorem add_metadata_frame {V} (S T : list nat) (st : St V)
    (info : list (string * pyval)) (d l : Dataset V) :
  Ready S T st → data_array st = Some d → label_array st = Some l →
  Forall (λ kv, has_nul kv.1 = false) info →
  ∃ d', ((add_metadata info st).1 = Return tt ∨
         (add_metadata info st).1 = Raise ValueError) ∧
        (storable info → (add_metadata info st).1 = Return tt) ∧
        self (add_metadata info st).2 = self st ∧
        data_array (add_metadata info st).2 = Some d' ∧
        label_array (add_metadata info st).2 = Some l ∧
        ds_shape d' = ds_shape d ∧ ds_data d' = ds_data d ∧
        ds_dtype d' = ds_dtype d ∧
        ∀ k, k ≠ "version" → k ∉ info.*1 → ds_attrs d' !! k = ds_attrs d !! k.
Proof.
  intros HR Ed El Hnul.
  destruct (Ready_arrays S T st d l HR Ed El) as (H & _ & _).
  destruct (add_metadata_holds st d l info H) as (st' & -> & H' & Hs).
  eexists. split; [apply metadata_result_cases|].
  split; [apply storable_result|]. split; [exact Hs|].
  split; [by apply (holds_data_array _ _ _ H')|].
  split; [by apply (holds_label_array _ _ _ H')|].
  repeat split. intros k Hv Hk. cbn [ds_attrs with_attrs]. unfold metadata_attrs.
  rewrite items_attrs_other by (by rewrite nul_free_names).
  by rewrite lookup_insert_ne.
Qed.

Lemma add_metadata_frame_witness :
  ∃ d', ((add_metadata [("noise_aug", PyNone); ("", PyInt 3)] Example.st23).1 = Return tt ∨
         (add_metadata [("noise_aug", PyNone); ("", PyInt 3)] Example.st23).1
         = Raise ValueError) ∧
        (storable [("noise_aug", PyNone); ("", PyInt 3)] →
         (add_metadata [("noise_aug", PyNone); ("", PyInt 3)] Example.st23).1 = Return tt) ∧
        self (add_metadata [("noise_aug", PyNone); ("", PyInt 3)] Example.st23).2
        = self Example.st23 ∧
        data_array (add_metadata [("noise_aug", PyNone); ("", PyInt 3)] Example.st23).2
        = Some d' ∧
        label_array (add_metadata [("noise_aug", PyNone); ("", PyInt 3)] Example.st23).2
        = Some Example.labels23 ∧
        ds_shape d' = ds_shape Example.data23 ∧ ds_data d' = ds_data Example.data23 ∧
        ds_dtype d' = ds_dtype Example.data23 ∧
        ∀ k, k ≠ "version" → k ∉ [("noise_aug", PyNone); ("", PyInt 3)].*1 →
             ds_attrs d' !! k = ds_attrs Example.data23 !! k.
Proof.
  apply (add_metadata_frame [3] [1] Example.st23).
  - apply Ready_st23.
  - vm_compute. reflexivity.
  - vm_compute. reflexivity.
  - repeat constructor.
Defined.

(** X11 — After [add_metadata(info)] on an initialized container, where
    every key of the dictionary is a non-empty name without NUL and no
    value's string holds a NUL, the call returns and every key of the
    dictionary is an attribute of the data array whose value is [str] of the
    dictionary's value; this holds for the key ["version"] too, which then
    replaces the version stamp. *)
Theorem add_metadata_stores_items {V} (S T : list nat) (st : St V)
    (info : list (string * pyval)) (k : string) (v : pyval) :
  Ready S T st → storable info → NoDup info.*1 → (k, v) ∈ info →
  ∃ st' d', add_metadata info st = (Return tt, st') ∧
            data_array st' = Some d' ∧ ds_attrs d' !! k = Some (str v).
Proof.
  intros (d & l & H & _) Hst Hnd Hin.
  destruct (add_metadata_holds st d l info H) as (st' & E & H' & _).
  rewrite storable_result in E by done.
  eexists st', _. split; [exact E|]. split; [by apply (holds_data_array _ _ _ H')|].
  cbn [ds_attrs with_attrs]. unfold metadata_attrs. by apply items_attrs_lookup.
Qed.

Lemma add_metadata_stores_items_witness :
  ∃ st' d', add_metadata [("noise_aug", PyNone); ("version", PyInt 3)] Example.st23
              = (Return tt, st') ∧
            data_array st' = Some d' ∧ ds_attrs d' !! "version" = Some "3".
Proof.
  apply (add_metadata_stores_items [3] [1] Example.st23
           [("noise_aug", PyNone); ("version", PyInt 3)] "version" (PyInt 3)).
  - apply Ready_st23.
  - repeat constructor; discriminate.
  - simpl. apply NoDup_cons. split; [|apply NoDup_singleton].
    intros H%list_elem_of_singleton. discriminate.
  - apply list_elem_of_further, list_elem_of_here.
Defined.

(** X12 — Metadata outlives appends: an [append] on an initialized
    container, returning or raising, leaves the attributes of the data
    array as they were. *)
Theorem append_keeps_metadata {V} (S T : list nat) (st : St V)
    (data labels : ndarray V) (d : Dataset V) :
  Ready S T st → data_array st = Some d →
  ∃ d', data_array (append data labels st).2 = Some d' ∧ ds_attrs d' = ds_attrs d.
Proof.
  intros (d0 & l & H & [n Hd] & [m Hl]) Ed.
  rewrite (holds_data_array _ _ _ H) in Ed. injection Ed as <-.
  destruct (append_holds st d0 l data labels H) as (st' & -> & H' & _).
  eexists. split; [by apply (holds_data_array _ _ _ H')|].
  by destruct (append_arrays_fields n m S T d0 l data labels Hd Hl) as ((_ & _ & ?) & _).
Qed.

Lemma append_keeps_metadata_witness :
  ∃ d d',
    data_array (add_metadata [("info", PyStr "x")] Example.st23).2 = Some d ∧
    data_array (append (Example.rows 1 3 10) (Example.rows 1 1 200)
                  (add_metadata [("info", PyStr "x")] Example.st23).2).2 = Some d' ∧
    ds_attrs d' = ds_attrs d ∧ ds_attrs d' !! "info" = Some "x".
Proof.
  eexists.
  destruct (append_keeps_metadata [3] [1]
              (add_metadata [("info", PyStr "x")] Example.st23).2
              (Example.rows 1 3 10) (Example.rows 1 1 200)
              (with_attrs (metadata_attrs [("info", PyStr "x")] ∅) Example.data23))
    as (d' & Hd' & Ha).
  - apply add_metadata_Ready, Ready_st23.
  - vm_compute. reflexivity.
  - exists d'. split; [vm_compute; reflexivity|]. split; [exact Hd'|].
    split; [exact Ha|]. rewrite Ha. vm_compute. reflexivity.
Defined.

(** ** Outcomes and contents of later appends *)

Section Outcomes.
Context {V : Type}.
Implicit Types (d l : Dataset V) (batch data labels : ndarray V) (st : St V) (S T : list nat).

Lemma extend_array_outcome n S d batch :
  shaped n S d → wf_array batch →
  ((extend_array batch d).1 = Return tt ∧ nd_shape batch ≠ []) ∨
  ((extend_array batch d).1 = Raise TypeError ∧ nd_shape batch ≠ []) ∨
  ((extend_array batch d).1 = Raise IndexError ∧ nd_shape batch = []).
Proof.
  intros Hd Hwf. destruct (nd_shape batch) as [|c rest] eqn:Hb.
  - right; right. by rewrite (extend_array_scalar n S d batch).
  - destruct (extend_array_grows n c rest S d batch Hd Hwf Hb) as (tl & _ & _ & [Hr|[Hr _]]);
      rewrite Hr; [by left|by right; left].
Qed.

(** A returning [extend] of a batch of the fixed per-sample shape. *)
Lemma extend_array_return n c S d batch :
  shaped n S d → wf_array batch → nd_shape batch = c :: S →
  (extend_array batch d).1 = Return tt →
  (extend_array batch d).2 =
  with_contents (n + c :: S) (ds_data d ++ (dt_cast (ds_dtype d) <$> nd_flat batch)) d.
Proof.
  intros Hd Hwf Hb Hr. destruct c as [|c].
  - destruct (extend_array_grows n 0 S S d batch Hd Hwf Hb) as (tl & Htl & -> & _).
    apply nil_length_inv in Htl as ->.
    unfold wf_array in Hwf. rewrite Hb in Hwf. apply nil_length_inv in Hwf as ->. done.
  - by rewrite (extend_array_match n (Datatypes.S c) S d batch) by (done || lia).
Qed.

End Outcomes.

(** X13 — On an initialized container an [append] either returns or raises
    [TypeError] or [IndexError], nothing else (in particular the resize
    never fails); it raises [IndexError] only when one of the batches has
    no axis. *)
Theorem append_outcomes {V} (S T : list nat) (st : St V) (data labels : ndarray V) :
  Ready S T st → wf_array data → wf_array labels →
  ((append data labels st).1 = Return tt ∨
   (append data labels st).1 = Raise TypeError ∨
   (append data labels st).1 = Raise IndexError) ∧
  ((append data labels st).1 = Raise IndexError →
   nd_shape data = [] ∨ nd_shape labels = []).
Proof.
  intros (d & l & H & [n Hd] & [m Hl]) Hwd Hwl.
  destruct (append_holds st d l data labels H) as (st' & -> & _). cbn [fst].
  unfold append_arrays.
  destruct (extend_array_outcome n S d data Hd Hwd) as [[E _]|[[E _]|[E Hb]]];
  destruct (extend_array_outcome m T l labels Hl Hwl) as [[E' _]|[[E' _]|[E' Hb']]];
  destruct (extend_array data d) as [r1 d']; destruct (extend_array labels l) as [r2 l'];
  simpl in *; subst; simpl; split; auto; intros; try discriminate; auto.
Qed.

Lemma append_outcomes_witness :
  ((append (Example.rows 1 4 0) (Example.rows 1 1 0) Example.st23).1 = Return tt ∨
   (append (Example.rows 1 4 0) (Example.rows 1 1 0) Example.st23).1 = Raise TypeError ∨
   (append (Example.rows 1 4 0) (Example.rows 1 1 0) Example.st23).1 = Raise IndexError) ∧
  ((append (Example.rows 1 4 0) (Example.rows 1 1 0) Example.st23).1 = Raise IndexError →
   nd_shape (Example.rows 1 4 0) = [] ∨ nd_shape (Example.rows 1 1 0) = []).
Proof.
  apply (append_outcomes [3] [1]); [apply Ready_st23|reflexivity|reflexivity].
Defined.

Section Contents.
Context {V : Type}.
Implicit Types (d l : Dataset V) (data labels : ndarray V) (st : St V) (S T : list nat).

Lemma appends_contents rest : ∀ st st' d l n m S T,
  holds st d l → shaped n S d → shaped m T l →
  Forall (λ b, wf_array b.1 ∧ wf_array b.2 ∧
               tail (nd_shape b.1) = S ∧ tail (nd_shape b.2) = T) rest →
  appends rest st = (Return tt, st') →
  ∃ d' l', holds st' d' l' ∧
    d' = with_contents (n + sum_list (batch_count <$> rest.*1) :: S)
           (ds_data d ++ (dt_cast (ds_dtype d) <$> concat (nd_flat <$> rest.*1))) d ∧
    l' = with_contents (m + sum_list (batch_count <$> rest.*2) :: T)
           (ds_data l ++ (dt_cast (ds_dtype l) <$> concat (nd_flat <$> rest.*2))) l.
Proof.
  induction rest as [|[data labels] rest IH]; intros st st' d l n m S T H Hd Hl Hwf Hr.
  - injection Hr as <-. exists d, l. simpl. rewrite !Nat.add_0_r, !app_nil_r.
    destruct Hd as (Hs1 & _), Hl as (Hs2 & _). rewrite <- Hs1, <- Hs2.
    by rewrite !with_contents_id.
  - apply Forall_cons in Hwf as [(Hwd & Hwl & HS & HT) Hwf]. simpl in Hwd, Hwl, HS, HT.
    rewrite appends_cons in Hr.
    destruct (append_holds st d l data labels H) as (st1 & E & H1 & _).
    rewrite E in Hr.
    destruct ((append_arrays data labels d l).1.1) as [[]|e] eqn:Er; [|done].
    destruct (append_arrays_return data labels d l Er) as (R1 & R2 & E1 & E2).
    destruct (extend_array_outcome n S d data Hd Hwd) as [[_ Hb]|[[F _]|[F _]]];
      [|congruence..].
    destruct (extend_array_outcome m T l labels Hl Hwl) as [[_ Hb']|[[F _]|[F _]]];
      [|congruence..].
    destruct (nd_shape data) as [|c S0] eqn:Ed; [done|]. simpl in HS. subst S0.
    destruct (nd_shape labels) as [|c' T0] eqn:El; [done|]. simpl in HT. subst T0.
    rewrite (extend_array_return n c S d data Hd Hwd Ed R1) in E1.
    rewrite (extend_array_return m c' T l labels Hl Hwl El R2) in E2.
    rewrite E1, E2 in H1.
    assert (length (nd_flat data) = c * product S) as Hld by (unfold wf_array in Hwd; by rewrite Ed in Hwd).
    assert (length (nd_flat labels) = c' * product T) as Hll by (unfold wf_array in Hwl; by rewrite El in Hwl).
    edestruct (IH st1 st' _ _ (n + c) (m + c') S T H1) as (d' & l' & H' & -> & ->);
      [| |exact Hwf|exact Hr|].
    { apply (shaped_with_contents n); [done|].
      rewrite length_app, length_fmap, Hld. destruct Hd as (_ & _ & _ & ->). lia. }
    { apply (shaped_with_contents m); [done|].
      rewrite length_app, length_fmap, Hll. destruct Hl as (_ & _ & _ & ->). lia. }
    eexists _, _. split; [exact H'|].
    assert (batch_count data = c) as Hbc by (unfold batch_count; by rewrite Ed).
    assert (batch_count labels = c') as Hbc' by (unfold batch_count; by rewrite El).
    rewrite !with_contents_twice.
    cbn [ds_data ds_dtype with_contents fmap list_fmap fst snd concat sum_list sum_list_with].
    rewrite Hbc, Hbc', !fmap_app, <- !app_assoc, !Nat.add_assoc. done.
Qed.

End Contents.

(** X14 — The arrays are the concatenation of the batches.  After a
    non-empty sequence of appends that all return, started on a container
    inside its [with] block, with every data batch of per-sample shape [S]
    and every label batch of per-sample shape [T]: the data array has shape
    (total count, S...) and its elements are those of the data batches, in
    order, converted to [data_type]; likewise the label array. *)
Theorem arrays_are_concatenation {V} (S T : list nat) (st st' : St V)
    (batches : list (ndarray V * ndarray V)) :
  Entered st → batches ≠ [] →
  Forall (λ b, wf_array b.1 ∧ wf_array b.2 ∧
               tail (nd_shape b.1) = S ∧ tail (nd_shape b.2) = T) batches →
  appends batches st = (Return tt, st') →
  ∃ d l, data_array st' = Some d ∧ label_array st' = Some l ∧
         ds_shape d = sum_list (batch_count <$> batches.*1) :: S ∧
         ds_data d = dt_cast (data_type (self st)) <$> concat (nd_flat <$> batches.*1) ∧
         ds_shape l = sum_list (batch_count <$> batches.*2) :: T ∧
         ds_data l = dt_cast (label_type (self st)) <$> concat (nd_flat <$> batches.*2).
Proof.
  intros He Hne Hwf Hr. destruct batches as [|[data labels] rest]; [done|].
  apply Forall_cons in Hwf as [(Hwd & Hwl & HS & HT) Hwf]. simpl in Hwd, Hwl, HS, HT.
  rewrite appends_cons in Hr.
  destruct (append data labels st) as [[[]|e] st1] eqn:E; [|done].
  destruct (append_first_inv st st1 data labels He E) as (Hd & Hl & H1).
  destruct (nd_shape data) as [|c S0] eqn:Ed; [done|]. simpl in HS. subst S0.
  destruct (nd_shape labels) as [|c' T0] eqn:El; [done|]. simpl in HT. subst T0.
  pose proof (init_array_shaped (data_type (self st)) (compression (self st)) data c S Ed Hwd) as Hd1.
  pose proof (init_array_shaped (label_type (self st)) (compression (self st)) labels c' T El Hwl) as Hl1.
  destruct (appends_contents rest _ _ _ _ _ _ _ _ H1 Hd1 Hl1 Hwf Hr) as (d' & l' & H' & -> & ->).
  eexists _, _.
  split; [by apply (holds_data_array _ _ _ H')|].
  split; [by apply (holds_label_array _ _ _ H')|].
  assert (batch_count data = c) as Hbc by (unfold batch_count; by rewrite Ed).
  assert (batch_count labels = c') as Hbc' by (unfold batch_count; by rewrite El).
  cbn [ds_shape ds_data ds_dtype with_contents init_array fmap list_fmap fst snd concat sum_list sum_list_with].
  rewrite Hbc, Hbc', !fmap_app. done.
Qed.

Lemma arrays_are_concatenation_witness :
  ∃ d l,
    data_array (appends [(Example.rows 2 3 0, Example.rows 2 1 100);
                         (Example.rows 1 3 10, Example.rows 4 1 200)] Example.entered).2 = Some d ∧
    label_array (appends [(Example.rows 2 3 0, Example.rows 2 1 100);
                          (Example.rows 1 3 10, Example.rows 4 1 200)] Example.entered).2 = Some l ∧
    ds_shape d = [3; 3] ∧ ds_data d = [0; 1; 2; 0; 1; 2; 10; 11; 12]%Z ∧
    ds_shape l = [6; 1] ∧ ds_data l = [100; 100; 200; 200; 200; 200]%Z.
Proof.
  apply (arrays_are_concatenation [3] [1] Example.entered _
           [(Example.rows 2 3 0, Example.rows 2 1 100);
            (Example.rows 1 3 10, Example.rows 4 1 200)]).
  - apply Entered_example.
  - discriminate.
  - repeat constructor.
  - vm_compute. reflexivity.
Defined.

(** ** Broadcast samples *)

Section Replication.
Context {V : Type}.
Implicit Types (d l : Dataset V) (batch data labels : ndarray V) (st : St V) (S T : list nat).

Lemma product_ones k : product (replicate k 1) = 1.
Proof. induction k as [|k IH]; simpl; [done|]. rewrite IH. lia. Qed.

Lemma compatible_ones S : compatible (replicate (length S) 1) S = true.
Proof. induction S as [|s S IH]; [done|]. simpl. by rewrite compatible_cons, IH. Qed.

(** One value written over a whole row. *)
Lemma broadcast_ones S (x : V) :
  broadcast (replicate (length S) 1) S [x] = replicate (product S) x.
Proof.
  induction S as [|s S IH]; [done|].
  cbn [length replicate broadcast]. rewrite product_ones.
  rewrite (flat_map_ext_in _ (λ _, replicate (product S) x)).
  - rewrite (flat_map_const _ _ (product S) x) by done. by rewrite length_seq.
  - intros k _. rewrite Nat.mod_1_r. unfold chunk. simpl. exact IH.
Qed.

(** The [j]-th block of a list made of blocks of one length. *)
Lemma chunk_flat_map (f : nat → list V) m c : ∀ a j,
  (∀ k, length (f k) = m) → j < c →
  chunk m j (flat_map f (seq a c)) = f (a + j).
Proof.
  induction c as [|c IH]; intros a j Hf Hj; [lia|].
  cbn [seq flat_map]. destruct j as [|j].
  - unfold chunk. simpl. rewrite Nat.add_0_r, <- (Hf a). apply take_app_length.
  - rewrite chunk_succ, <- (Hf a), drop_app_length, (Hf a).
    rewrite IH by (done || lia). f_equal. lia.
Qed.

Lemma broadcast_rows c S (src : list V) j x :
  length src = c → src !! j = Some x →
  chunk (product S) j (broadcast (c :: replicate (length S) 1) (c :: S) src) =
  replicate (product S) x.
Proof.
  intros Hl Hx. pose proof (lookup_lt_Some _ _ _ Hx) as Hj. rewrite Hl in Hj.
  cbn [broadcast]. rewrite product_ones.
  rewrite (flat_map_ext_in _ (λ k, replicate (product S) (default x (src !! k)))).
  - rewrite (chunk_flat_map _ (product S)); [|intros; apply length_replicate|done].
    simpl. by rewrite Hx.
  - intros k Hk. apply in_seq in Hk. rewrite Nat.mod_small by lia.
    destruct (lookup_lt_is_Some_2 src k) as [y Hy]; [lia|]. rewrite Hy. simpl.
    assert (chunk 1 k src = [y]) as ->; [|apply broadcast_ones].
    unfold chunk. rewrite Nat.mul_1_r.
    rewrite (drop_S _ _ _ Hy). simpl. by rewrite take_0.
Qed.

End Replication.

(** X15 — A data batch whose samples are single values is replicated.  On
    an initialized container, an [append] of [c] samples given as an array
    of shape [(c, 1, ..., 1)] of the fixed rank (with a label batch of the
    fixed shape that has at least one row) returns, and the [j]-th new row
    of the data array consists
    of the [j]-th value of the batch, converted, repeated over the whole
    row. *)
Theorem single_values_are_replicated {V} (S T : list nat) (st : St V)
    (data labels : ndarray V) (d : Dataset V) (c c' j : nat) (x : V) :
  Ready S T st → data_array st = Some d →
  wf_array data → wf_array labels →
  nd_shape data = c :: replicate (length S) 1 → nd_shape labels = c' :: T →
  0 < c' → nd_flat data !! j = Some x →
  ∃ st' d', append data labels st = (Return tt, st') ∧
            data_array st' = Some d' ∧ count d' = count d + c ∧
            row d' (count d + j) = replicate (product S) (dt_cast (ds_dtype d) x).
Proof.
  intros (d0 & l & H & [n Hd] & [m Hl]) Ed Hwd Hwl Eb Ebl Hc' Hx.
  rewrite (holds_data_array _ _ _ H) in Ed. injection Ed as <-.
  assert (length (nd_flat data) = c) as Hlen.
  { unfold wf_array in Hwd. rewrite Hwd, Eb. simpl. rewrite product_ones. lia. }
  assert (j < c) as Hj by (rewrite <- Hlen; by eapply lookup_lt_Some).
  destruct (append_holds st d0 l data labels H) as (st' & E & H' & _).
  unfold append_arrays in E, H'.
  rewrite (extend_array_compatible n c S (replicate (length S) 1) d0 data) in E, H'
    by (done || lia || by rewrite length_replicate || apply compatible_ones).
  rewrite (extend_array_match m c' T l labels) in E, H' by done.
  cbn [fst snd] in E, H'.
  eexists st', _. split; [exact E|]. split; [by apply (holds_data_array _ _ _ H')|].
  assert (count d0 = n) as -> by (unfold count; by destruct Hd as (-> & _)).
  split; [done|].
  unfold row, sample_shape. cbn [fst snd ds_shape ds_data with_contents tail].
  rewrite chunk_shift by (by destruct Hd as (_ & _ & _ & ->)).
  apply broadcast_rows; [by rewrite length_fmap|].
  by rewrite list_lookup_fmap, Hx.
Qed.

Lemma single_values_are_replicated_witness :
  ∃ st' d', append {| nd_shape := [2; 1]; nd_flat := [7; 8]%Z |} (Example.rows 2 1 0) Example.st23
              = (Return tt, st') ∧
            data_array st' = Some d' ∧ count d' = count Example.data23 + 2 ∧
            row d' (count Example.data23 + 1) = replicate 3 8%Z.
Proof.
  apply (single_values_are_replicated [3] [1] Example.st23
           {| nd_shape := [2; 1]; nd_flat := [7; 8]%Z |} (Example.rows 2 1 0)
           Example.data23 2 2 1 8%Z).
  - apply Ready_st23.
  - vm_compute. reflexivity.
  - reflexivity.
  - reflexivity.
  - reflexivity.
  - reflexivity.
  - lia.
  - reflexivity.
Defined.

(** ** The fragments of a spectrogram *)

Lemma per_input_250 : N.to_nat spectrogram_slices_per_input = 250.
Proof. vm_compute. reflexivity. Qed.

Section FragmentFacts.
Context {V : Type}.
Implicit Types (spectrogram slices : list V).

(** A slice inside the array is a full block of rows. *)
Lemma slice_rows_inside frames bins per i spectrogram :
  (i + 1) * per ≤ frames →
  slice_rows frames bins (i * per) ((i + 1) * per) spectrogram =
  {| nd_shape := [per; bins];
     nd_flat := take (per * bins) (drop (i * (per * bins)) spectrogram) |}.
Proof.
  intros H. unfold slice_rows.
  rewrite (Nat.min_l (i * per)) by lia. rewrite (Nat.min_l ((i + 1) * per)) by lia.
  replace ((i + 1) * per - i * per) with per by lia.
  by rewrite Nat.mul_assoc.
Qed.

(** The loop, fragment by fragment: what has been copied so far and the
    zeros still to be overwritten. *)
Lemma fragments_loop (zero : V) frames bins per n spectrogram len : ∀ a,
  length spectrogram = frames * bins → n * per ≤ frames → a + len ≤ n →
  for_each (seq a len) (λ i,
      setitem_index n per bins i
        (slice_rows frames bins (i * per) ((i + 1) * per) spectrogram))
    (take (a * (per * bins)) spectrogram ++ replicate ((n - a) * (per * bins)) zero)
  = (Return tt,
     take ((a + len) * (per * bins)) spectrogram ++
     replicate ((n - (a + len)) * (per * bins)) zero).
Proof.
  induction len as [|len IH]; intros a Hl Hn Ha.
  - by rewrite Nat.add_0_r.
  - cbn [seq for_each]. unfold mbind, Eff_bind.
    assert ((a + 1) * per ≤ frames) as Hin by nia.
    assert ((a + 1) * (per * bins) ≤ length spectrogram) as Hlen by (rewrite Hl; nia).
    unfold setitem_index at 1.
    destruct (Nat.ltb_spec a n) as [_|]; [|lia]. cbn [negb].
    rewrite slice_rows_inside by done. cbn [nd_shape nd_flat length Nat.eqb negb].
    rewrite compatible_refl. cbn [negb].
    rewrite broadcast_same.
    2:{ rewrite length_take, length_drop. cbn [product foldr]. lia. }
    rewrite take_app_le, take_take by (rewrite length_take; lia).
    rewrite Nat.min_id.
    rewrite drop_app_ge by (rewrite length_take; lia).
    rewrite length_take, drop_replicate.
    rewrite app_assoc, take_take_drop.
    replace (a * (per * bins) + per * bins) with (S a * (per * bins)) by lia.
    match goal with
    | |- for_each _ _ (_ ++ replicate ?k zero) = _ =>
        replace k with ((n - S a) * (per * bins)) by nia
    end.
    rewrite (IH (S a)) by (done || lia).
    by replace (S a + len) with (a + S len) by lia.
Qed.

End FragmentFacts.

(** The value of [tf_fourier_fragments]. *)
Lemma tf_fourier_fragments_value {V} (zero : V) (frames bins : nat)
    (spectrogram : list V) :
  length spectrogram = frames * bins →
  tf_fourier_fragments zero frames bins spectrogram =
  Return {| nd_shape := [frames / 250; 250; bins];
            nd_flat := take (frames / 250 * (250 * bins)) spectrogram |}.
Proof.
  intros Hl. unfold tf_fourier_fragments. rewrite per_input_250.
  pose proof (fragments_loop zero frames bins 250 (frames / 250) spectrogram (frames / 250) 0 Hl)
    as Hloop.
  rewrite Nat.mul_0_l, take_0, Nat.sub_0_r, Nat.add_0_l, Nat.sub_diag in Hloop.
  rewrite Nat.mul_0_l in Hloop. cbn [replicate app] in Hloop.
  rewrite Hloop.
  - by rewrite app_nil_r.
  - rewrite Nat.mul_comm. apply Nat.Div0.mul_div_le.
  - lia.
Qed.

(** X16 — From a spectrogram of [frames] rows of [bins] values,
    [tf_fourier] returns, without raising, an array of shape
    [(frames // 250, 250, bins)] whose elements are the first
    [250 * (frames // 250)] rows of the spectrogram, in order: fragment [i]
    is rows [250 i] to [250 i + 249], no zero of the initial array is left,
    and the last [frames mod 250] rows are dropped. *)
Theorem fragments_are_the_leading_rows {V} (zero : V) (frames bins : nat)
    (spectrogram : list V) :
  length spectrogram = frames * bins →
  tf_fourier_fragments zero frames bins spectrogram =
  Return {| nd_shape := [frames / 250; 250; bins];
            nd_flat := take (frames / 250 * (250 * bins)) spectrogram |}.
Proof. apply tf_fourier_fragments_value. Qed.

Lemma fragments_are_the_leading_rows_witness :
  tf_fourier_fragments 0%Z 251 1 (Z.of_nat <$> seq 1 251) =
  Return {| nd_shape := [251 / 250; 250; 1];
            nd_flat := take (251 / 250 * (250 * 1)) (Z.of_nat <$> seq 1 251) |}.
Proof.
  apply (fragments_are_the_leading_rows 0%Z 251 1). reflexivity.
Defined.

(** X17 — A recording too short for one fragment.  For a spectrogram of
    fewer than 250 rows and at least one frequency bin ([0 < bins])
    [tf_fourier] returns the empty array of shape [(0, 250, bins)], and
    appending that array to an initialized container of samples of shape
    [(250, bins)] that already holds a sample raises [TypeError], whatever
    the label batch, and changes nothing. *)
Theorem short_recording_rejected {V} (zero : V) (frames bins : nat) (spectrogram : list V)
    (T : list nat) (st : St V) (labels : ndarray V) (d : Dataset V) :
  length spectrogram = frames * bins → frames < 250 → 0 < bins →
  Ready [250; bins] T st → data_array st = Some d → 0 < count d →
  ∃ data, tf_fourier_fragments zero frames bins spectrogram = Return data ∧
          nd_shape data = [0; 250; bins] ∧ nd_flat data = [] ∧
          append data labels st = (Raise TypeError, st).
Proof.
  intros Hl Hf Hb HR Ed Hc.
  rewrite (tf_fourier_fragments_value zero frames bins spectrogram Hl).
  rewrite (Nat.div_small frames 250) by done.
  eexists. split; [reflexivity|]. split; [done|]. split; [done|].
  apply (append_empty_data [250; bins] T [250; bins] st _ labels d); try done.
  cbn [product foldr]. lia.
Qed.

Lemma short_recording_rejected_witness :
  ∃ data, tf_fourier_fragments 0%Z 2 1 [5; 6]%Z = Return data ∧
          nd_shape data = [0; 250; 1] ∧ nd_flat data = [] ∧
          append data (Example.rows 1 1 0)
            (Example.within Example.int64 Example.int64
               (append {| nd_shape := [1; 250; 1]; nd_flat := replicate 250 1%Z |}
                       (Example.rows 1 1 0))).2
          = (Raise TypeError,
             (Example.within Example.int64 Example.int64
                (append {| nd_shape := [1; 250; 1]; nd_flat := replicate 250 1%Z |}
                        (Example.rows 1 1 0))).2).
Proof.
  apply (short_recording_rejected 0%Z 2 1 [5; 6]%Z [1] _ (Example.rows 1 1 0)
           (init_array Example.int64 None
              {| nd_shape := [1; 250; 1]; nd_flat := replicate 250 1%Z |})).
  - reflexivity.
  - lia.
  - lia.
  - eexists _, _. split; [split; [reflexivity|]|].
    + exists "test.hdf5". eexists. repeat split; vm_compute; reflexivity.
    + split; eexists; repeat split.
  - vm_compute. reflexivity.
  - vm_compute. lia.
Defined.

(** X18 — The fragments of a recording are accepted.  For a spectrogram of
    at least 250 rows, appending what [tf_fourier] returns, with a
    non-empty label batch of the fixed label shape, to an initialized
    container of samples of shape [(250, bins)] returns; the data array
    grows by [frames // 250] samples, the leading rows of the spectrogram
    converted to the array's element type. *)
Theorem fragments_are_appended {V} (zero : V) (frames bins : nat) (spectrogram : list V)
    (T : list nat) (st : St V) (labels : ndarray V) (d l : Dataset V) (c' : nat) :
  length spectrogram = frames * bins → 250 ≤ frames →
  Ready [250; bins] T st → data_array st = Some d → label_array st = Some l →
  wf_array labels → nd_shape labels = c' :: T → 0 < c' →
  ∃ data st', tf_fourier_fragments zero frames bins spectrogram = Return data ∧
              append data labels st = (Return tt, st') ∧
              data_array st' =
                Some (with_contents [count d + frames / 250; 250; bins]
                        (ds_data d ++
                         (dt_cast (ds_dtype d) <$>
                            take (frames / 250 * (250 * bins)) spectrogram)) d).
Proof.
  intros Hl Hf HR Ed El Hwl Ebl Hc'.
  rewrite (tf_fourier_fragments_value zero frames bins spectrogram Hl).
  eexists. 
  assert (0 < frames / 250) as Hn by (apply Nat.div_str_pos; lia).
  assert (frames / 250 * 250 ≤ frames) as Hle
    by (rewrite Nat.mul_comm; apply Nat.Div0.mul_div_le).
  edestruct (append_unequal_counts [250; bins] T st
               {| nd_shape := [frames / 250; 250; bins];
                  nd_flat := take (frames / 250 * (250 * bins)) spectrogram |}
               labels d l (frames / 250) c') as (st' & E & Hd' & _); try done.
  - unfold wf_array. cbn [nd_shape nd_flat product foldr].
    rewrite length_take, Hl. nia.
  - exists st'. split; [reflexivity|]. split; [exact E|exact Hd'].
Qed.

Lemma fragments_are_appended_witness :
  ∃ data st',
    tf_fourier_fragments 0%Z 251 1 (Z.of_nat <$> seq 1 251) = Return data ∧
    append data (Example.rows 1 1 0)
      (Example.within Example.int64 Example.int64
         (append {| nd_shape := [1; 250; 1]; nd_flat := replicate 250 1%Z |}
                 (Example.rows 1 1 0))).2 = (Return tt, st') ∧
    data_array st' =
      Some (with_contents [1 + 251 / 250; 250; 1]
              (replicate 250 1%Z ++
               ((λ x, x) <$> take (251 / 250 * (250 * 1)) (Z.of_nat <$> seq 1 251)))
              (init_array Example.int64 None
                 {| nd_shape := [1; 250; 1]; nd_flat := replicate 250 1%Z |})).
Proof.
  apply (fragments_are_appended 0%Z 251 1 (Z.of_nat <$> seq 1 251) [1] _ (Example.rows 1 1 0)
           (init_array Example.int64 None
              {| nd_shape := [1; 250; 1]; nd_flat := replicate 250 1%Z |})
           (init_array Example.int64 None (Example.rows 1 1 0)) 1).
  - reflexivity.
  - lia.
  - eexists _, _. split; [split; [reflexivity|]|].
    + exists "test.hdf5". eexists. repeat split; vm_compute; reflexivity.
    + split; eexists; repeat split.
  - vm_compute. reflexivity.
  - vm_compute. reflexivity.
  - reflexivity.
  - reflexivity.
  - lia.
Defined.

(** ** Counts that drift apart *)

(** X19 — The two arrays grow independently.  On an initialized container,
    an [append] of non-empty batches of the fixed per-sample shapes returns
    whatever the two batches' sample counts, and each array's sample count
    grows by its own batch's count: after data and label batches of
    different counts the two arrays no longer have the same number of
    samples if they had before. *)
Theorem counts_grow_independently {V} (S T : list nat) (st : St V)
    (data labels : ndarray V) (d l : Dataset V) (c c' : nat) :
  Ready S T st → data_array st = Some d → label_array st = Some l →
  wf_array data → wf_array labels →
  nd_shape data = c :: S → nd_shape labels = c' :: T → 0 < c → 0 < c' →
  ∃ st' d' l', append data labels st = (Return tt, st') ∧
               data_array st' = Some d' ∧ label_array st' = Some l' ∧
               count d' = count d + c ∧ count l' = count l + c' ∧
               (count d = count l → c ≠ c' → count d' ≠ count l').
Proof.
  intros HR Ed El Hwd Hwl Eb Ebl Hc Hc'.
  destruct (append_unequal_counts S T st data labels d l c c' HR Ed El Hwd Hwl Eb Ebl Hc Hc')
    as (st' & E & Hd' & Hl').
  eexists st', _, _. split; [exact E|]. split; [exact Hd'|]. split; [exact Hl'|].
  unfold count. cbn [ds_shape with_contents hd]. split; [done|]. split; [done|].
  fold (count d) (count l). lia.
Qed.

Lemma counts_grow_independently_witness :
  ∃ st' d' l', append (Example.rows 1 3 10) (Example.rows 4 1 200) Example.st23
                 = (Return tt, st') ∧
               data_array st' = Some d' ∧ label_array st' = Some l' ∧
               count d' = count Example.data23 + 1 ∧
               count l' = count Example.labels23 + 4 ∧
               (count Example.data23 = count Example.labels23 → 1 ≠ 4 →
                count d' ≠ count l').
Proof.
  apply (counts_grow_independently [3] [1] Example.st23
           (Example.rows 1 3 10) (Example.rows 4 1 200)
           Example.data23 Example.labels23 1 4).
  - apply Ready_st23.
  - vm_compute. reflexivity.
  - vm_compute. reflexivity.
  - reflexivity.
  - reflexivity.
  - reflexivity.
  - reflexivity.
  - lia.
  - lia.
Defined.
